(** * AA Tau ALMA cleaning script: a shallow embedding of [clean_all_lines.py]

    The script drives CASA's [tclean], [imstat], [exportfits] and the
    Keplerian masking routine over a fixed catalogue of spectral lines.
    Its own code is path assembly, a noise-based threshold and a batch
    loop that swallows per-line failures; that code is what is embedded
    here.  The engines are external: a run is described by the calls it
    makes to them and by what they answer.  (The loading of the masking
    routine at import time, lines 44-50, is outside the embedding.)

    Layout of this file:
    - [PyStr]   : the Python string and [posixpath] operations the script uses;
    - [PyFloat] : binary64 numbers, [round(x, n)] and [str(x)];
    - [Config]  : the module-level configuration tables;
    - [Casa]    : external calls, exceptions, the state of a run,
                  [clean_line] and [main], and the vocabulary in which
                  runs are described;
    - the properties: one run of [clean_line], its threshold, its calls,
      its names, the module globals, the batch loop. *)

From Stdlib Require Import ZArith Floats DecimalString Ascii String List Bool Lia.
From stdpp Require Import gmap strings list.

Set Warnings "-inexact-float".

(* ====================================================================== *)
(** ** Python strings and POSIX paths *)
(* ====================================================================== *)

Module PyStr.

(** [s[n:]] *)
Fixpoint str_drop (n : nat) (s : string) : string :=
  match n, s with
  | O, _ => s
  | S _, EmptyString => EmptyString
  | S k, String _ s' => str_drop k s'
  end.

(** [s.startswith(p)] *)
Definition startswith (p s : string) : bool := String.prefix p s.

(** [s.endswith(c)] for a one-character [c]. *)
Fixpoint endswith_char (c : ascii) (s : string) : bool :=
  match s with
  | EmptyString => false
  | String a EmptyString => Ascii.eqb a c
  | String _ s' => endswith_char c s'
  end.

(** [s.rfind(c) + 1] for a one-character [c]: the number of characters up
    to and including the last [c], [0] when [c] does not occur. *)
Fixpoint rfind_succ (c : ascii) (s : string) : nat :=
  match s with
  | EmptyString => 0
  | String a s' =>
      match rfind_succ c s' with
      | O => if Ascii.eqb a c then 1 else 0
      | S k => S (S k)
      end
  end.

(** [s.replace(old, new)] for a non-empty [old]: occurrences are replaced
    left to right without overlap.  [skip] counts the characters of a
    match that are still to be consumed. *)
Fixpoint replace_from (old new : string) (skip : nat) (s : string) : string :=
  match s with
  | EmptyString => EmptyString
  | String c s' =>
      match skip with
      | S k => replace_from old new k s'
      | O =>
          if String.prefix old s
          then new +:+ replace_from old new (String.length old - 1) s'
          else String c (replace_from old new 0 s')
      end
  end.

(** With an empty [old] Python puts [new] before every character and at
    the end. *)
Fixpoint intersperse_all (new s : string) : string :=
  match s with
  | EmptyString => new
  | String c s' => new +:+ String c (intersperse_all new s')
  end.

Definition str_replace (old new s : string) : string :=
  match old with
  | EmptyString => intersperse_all new s
  | String _ _ => replace_from old new 0 s
  end.

(** [str(n)] for an [int]. *)
Definition str_of_int (n : Z) : string := NilZero.string_of_int (Z.to_int n).

(** [posixpath.join(a, *p)]:
<<
    path = a
    for b in p:
        if b.startswith(sep): path = b
        elif not path or path.endswith(sep): path += b
        else: path += sep + b
>>  *)
Definition join_step (path b : string) : string :=
  if startswith "/" b then b
  else if String.eqb path "" || endswith_char "/" path then path +:+ b
  else path +:+ "/" +:+ b.

Definition path_join (a : string) (p : list string) : string :=
  fold_left join_step p a.

(** [posixpath.basename(p)]: [i = p.rfind(sep) + 1; return p[i:]]. *)
Definition path_basename (p : string) : string :=
  str_drop (rfind_succ "/" p) p.

(** [template.format(spw=n)] on the templates of this script.  Literal
    text is copied, [{{] and [}}] are the escaped braces, and the
    replacement field [{spw}] is the decimal representation of [n].  A
    field named by another identifier is the [KeyError] Python raises for
    a missing keyword, an empty field is the [IndexError] of a missing
    positional argument, and a brace without its partner is a
    [ValueError].  The catalogue uses the field [{spw}] and nothing else;
    fields with a conversion, a format specification, an attribute or an
    index ([{spw!r}], [{spw:03d}], [{spw.real}], [{spw[0]}]) are outside
    this fragment: the function reads the whole text of a field as its
    name, where Python parses it.  What is proved about the result of
    formatting, or about its failure, is stated for templates inside the
    fragment. *)
Inductive format_error :=
| FormatKeyError (field : string)
| FormatIndexError
| FormatValueError.

Fixpoint has_char (c : ascii) (s : string) : bool :=
  match s with
  | EmptyString => false
  | String a s' => Ascii.eqb a c || has_char c s'
  end.

Fixpoint all_digits (s : string) : bool :=
  match s with
  | EmptyString => true
  | String c s' =>
      ((48 <=? nat_of_ascii c)%nat && (nat_of_ascii c <=? 57)%nat) && all_digits s'
  end.

(** The text of a replacement field up to its closing brace, and the rest
    of the template after the brace. *)
Fixpoint split_field (s : string) : option (string * string) :=
  match s with
  | EmptyString => None
  | String c s' =>
      if Ascii.eqb c "}" then Some (EmptyString, s')
      else match split_field s' with
           | Some (f, rest) => Some (String c f, rest)
           | None => None
           end
  end.

Fixpoint format_from (fuel : nat) (spw : Z) (s : string) : format_error + string :=
  match fuel with
  | O => inr EmptyString
  | S fuel' =>
      match s with
      | EmptyString => inr EmptyString
      | String c s' =>
          if Ascii.eqb c "{" then
            match s' with
            | String "{" s'' =>
                match format_from fuel' spw s'' with
                | inr r => inr (String "{" r)
                | inl e => inl e
                end
            | _ =>
                match split_field s' with
                | None => inl FormatValueError
                | Some (f, rest) =>
                    if has_char "{" f then inl FormatValueError
                    else if String.eqb f "spw" then
                      match format_from fuel' spw rest with
                      | inr r => inr (str_of_int spw +:+ r)
                      | inl e => inl e
                      end
                    else if all_digits f then inl FormatIndexError
                    else inl (FormatKeyError f)
                end
            end
          else if Ascii.eqb c "}" then
            match s' with
            | String "}" s'' =>
                match format_from fuel' spw s'' with
                | inr r => inr (String "}" r)
                | inl e => inl e
                end
            | _ => inl FormatValueError
            end
          else
            match format_from fuel' spw s' with
            | inr r => inr (String c r)
            | inl e => inl e
            end
      end
  end.

(** Every step consumes at least one character, so the length of the
    template (plus one) is enough fuel. *)
Definition str_format_spw (template : string) (spw : Z) : format_error + string :=
  format_from (S (String.length template)) spw template.

End PyStr.

(* ====================================================================== *)
(** ** Python floats: binary64, [round] and [str] *)
(* ====================================================================== *)

(** A Python [float] is an IEEE 754 binary64 number; it is modelled by the
    primitive [float], whose [*] and [<] are the hardware operations.
    [round(x, n)] and [str(x)] are defined on the exact value of [x], as
    CPython does through correctly rounded decimal conversion. *)

Module PyFloat.

(** The binary64 number nearest to [(-1)^s * num / den], ties to even. *)
Definition nearest (s : bool) (num den : positive) : float :=
  SF2Prim (SFdiv prec emax (S754_finite s num 0) (S754_finite false den 0)).

(** The binary64 number nearest to [(-1)^s * c * 10^q]. *)
Definition nearest_decimal (s : bool) (c : positive) (q : Z) : float :=
  if (0 <=? q)%Z then nearest s (c * Z.to_pos (10 ^ q)) 1
  else nearest s c (Z.to_pos (10 ^ (- q))).

(** The fraction [num / den * 10^k] as a pair of integers. *)
Definition scale10 (num den k : Z) : Z * Z :=
  if (0 <=? k)%Z then (num * 10 ^ k, den)%Z else (num, den * 10 ^ (- k))%Z.

(** The exact value of a finite non-zero float as [num / den]. *)
Definition exact_fraction (m : positive) (e : Z) : Z * Z :=
  if (0 <=? e)%Z then (Z.pos m * 2 ^ e, 1)%Z else (Z.pos m, 2 ^ (- e))%Z.

(** [num / den] rounded to an integer, halves to the even neighbour. *)
Definition round_half_even (num den : Z) : Z :=
  let q := (num / den)%Z in
  match (2 * (num mod den) ?= den)%Z with
  | Lt => q
  | Gt => (q + 1)%Z
  | Eq => if Z.even q then q else (q + 1)%Z
  end.

(** [round(x, ndigits)] for [ndigits >= 0]: the decimal with [ndigits]
    places nearest to the exact value of [x] (halves to even), converted
    back to binary64.  Zeros, infinities and NaN are returned unchanged,
    and a result that rounds to zero keeps the sign of [x].  (With a
    negative [ndigits] CPython can also raise [OverflowError]; the script
    only rounds to one place.) *)
Definition py_round (x : float) (ndigits : N) : float :=
  match Prim2SF x with
  | S754_finite s m e =>
      let '(num, den) := exact_fraction m e in
      let '(n, d) := scale10 num den (Z.of_N ndigits) in
      match round_half_even n d with
      | Z.pos k => nearest_decimal s k (- Z.of_N ndigits)
      | _ => if s then (-0)%float else 0%float
      end
  | _ => x
  end.

Definition digits_of (n : Z) : string := NilZero.string_of_uint (N.to_uint (Z.to_N n)).

(** The position of the decimal point: the [p] with
    [10^(p-1) <= num/den < 10^p]. *)
Definition decimal_point (num den : Z) : Z :=
  let p := (Z.of_nat (String.length (digits_of num)) - Z.of_nat (String.length (digits_of den)))%Z in
  let '(n, d) := scale10 num den (- p) in
  if (n <? d)%Z then p else (p + 1)%Z.

(** The shortest decimal [c * 10^q] that converts back to [x], trying
    1, 2, ... significant digits.  With [n] digits the two neighbours of
    the exact value are candidates; the nearer one is preferred, the even
    one when they are equally near, and the other one is taken when only
    it converts back. *)
Fixpoint shortest_from (fuel : nat) (x : float) (num den p n : Z) : Z * Z :=
  let '(sn, sd) := scale10 num den (n - p) in
  let lo := (sn / sd)%Z in
  let hi := (lo + 1)%Z in
  let back c := PrimFloat.eqb (nearest_decimal false (Z.to_pos c) (p - n)) x in
  let lo_ok := (0 <? lo)%Z && back lo in
  let hi_ok := back hi in
  let prefer_lo :=
    match (2 * (sn mod sd) ?= sd)%Z with
    | Lt => true
    | Gt => false
    | Eq => Z.even lo
    end in
  match fuel with
  | O => (if prefer_lo then lo else hi, (p - n)%Z)
  | S fuel' =>
      if lo_ok && (prefer_lo || negb hi_ok) then (lo, (p - n)%Z)
      else if hi_ok then (hi, (p - n)%Z)
      else shortest_from fuel' x num den p (n + 1)%Z
  end.

Fixpoint strip_zeros (fuel : nat) (c q : Z) : Z * Z :=
  match fuel with
  | O => (c, q)
  | S fuel' => if (c mod 10 =? 0)%Z then strip_zeros fuel' (c / 10)%Z (q + 1)%Z else (c, q)
  end.

(** Seventeen significant digits always identify a binary64 number. *)
Definition shortest_digits (m : positive) (e : Z) : string * Z :=
  let '(num, den) := exact_fraction m e in
  let p := decimal_point num den in
  let '(c, q) := shortest_from 16 (SF2Prim (S754_finite false m e)) num den p 1 in
  let '(c', q') := strip_zeros 17 c q in
  let ds := digits_of c' in
  (ds, (Z.of_nat (String.length ds) + q')%Z).

Fixpoint zeros (n : nat) : string :=
  match n with O => EmptyString | S k => String "0" (zeros k) end.

Fixpoint str_take (n : nat) (s : string) : string :=
  match n, s with
  | S k, String c s' => String c (str_take k s')
  | _, _ => EmptyString
  end.

(** The exponent of the scientific form: a sign and at least two digits. *)
Definition exponent_text (e : Z) : string :=
  let ds := digits_of (Z.abs e) in
  (if (e <? 0)%Z then "-" else "+") +:+ (if (String.length ds <? 2)%nat then "0" +:+ ds else ds).

(** [repr] of a positive finite float from its shortest digits [ds] and
    decimal point [decpt]: scientific form when [decpt <= -4] or
    [decpt > 16], positional form with at least one fractional digit
    otherwise. *)
Definition layout (ds : string) (decpt : Z) : string :=
  let nd := Z.of_nat (String.length ds) in
  if (decpt <=? -4)%Z || (16 <? decpt)%Z then
    str_take 1 ds
    +:+ (if (1 <? nd)%Z then "." +:+ PyStr.str_drop 1 ds else "")
    +:+ "e" +:+ exponent_text (decpt - 1)
  else if (decpt <=? 0)%Z then "0." +:+ zeros (Z.to_nat (- decpt)) +:+ ds
  else if (decpt <? nd)%Z then
    str_take (Z.to_nat decpt) ds +:+ "." +:+ PyStr.str_drop (Z.to_nat decpt) ds
  else ds +:+ zeros (Z.to_nat (decpt - nd)) +:+ ".0".

(** [str(x)], which is [repr(x)] and what an f-string field without a
    format specification produces. *)
Definition py_str (x : float) : string :=
  match Prim2SF x with
  | S754_zero s => if s then "-0.0" else "0.0"
  | S754_infinity s => if s then "-inf" else "inf"
  | S754_nan => "nan"
  | S754_finite s m e =>
      let '(ds, decpt) := shortest_digits m e in
      (if s then "-" else "") +:+ layout ds decpt
  end.

(** [x > 0] against the integer literal [0]. *)
Definition gt_zero (x : float) : bool := PrimFloat.ltb 0 x.

End PyFloat.

(* ====================================================================== *)
(** ** Configuration tables *)
(* ====================================================================== *)

Module Config.

(** One entry of a dataset's ['lines'] list. *)
Record LineSpec := {
  spw : Z;
  molecule : string;
  line_freq : float;
  restfreqs : list float;
}.

(** One entry of [DATASETS]. *)
Record DatasetSpec := {
  name : string;
  vis_template : string;
  width : string;
  lines : list LineSpec;
}.

Record MaskParams := {
  inc : float;
  PA : float;
  mstar : float;
  dist : float;
  vlsr : float;
  dx0 : float;
  dy0 : float;
  nbeams : float;
  dV0 : Z;
  dVq : float;
}.

Record TcleanCommon := {
  deconvolver : string;
  scales : list Z;
  specmode : string;
  start : string;
  nchan : Z;
  outframe : string;
  interactive : bool;
  imsize : list Z;
  cell : string;
  weighting : string;
  robust : float;
  uvtaper : list string;
  restoringbeam : string;
}.

Definition MASK_PARAMS : MaskParams := {|
  inc := 59.1;
  PA := 93.0 + 180.0;
  mstar := 0.62;
  dist := 145.0;
  vlsr := 6.445e3;
  dx0 := 0.0065;
  dy0 := -0.2573;
  nbeams := 2.0;
  dV0 := 500;
  dVq := -0.5;
|}.

Definition TCLEAN_COMMON_PARAMS : TcleanCommon := {|
  deconvolver := "multiscale";
  scales := [0; 5; 10; 20]%Z;
  specmode := "cube";
  start := "-3.0km/s";
  nchan := 100;
  outframe := "LSRK";
  interactive := false;
  imsize := [500; 500]%Z;
  cell := "0.03arcsec";
  weighting := "briggs";
  robust := 0.5;
  uvtaper := ["0.05arcsec"; "0.1483arcsec"; "26deg"];
  restoringbeam := "common";
|}.

Definition RMS_CHANNELS : string := "0~30".
Definition RMS_MULTIPLIER : float := 2.0.
Definition MAX_ITERATIONS : Z := 50000.

Definition DATASETS : list DatasetSpec := [
  {| name := "2013_SG2";
     vis_template := "AA_Tau_2013_SG2.spw{spw}.selfcal.ms.contsub_fit1";
     width := "0.3km/s";
     lines := [
       {| spw := 0; molecule := "N2H+"; line_freq := 279.5117491;
          restfreqs := [279.5117491]%float |};
       {| spw := 2; molecule := "DCO+"; line_freq := 288.1438583;
          restfreqs := [288.1438583]%float |};
       {| spw := 6; molecule := "H2CO"; line_freq := 290.623405;
          restfreqs := [290.623405]%float |}
     ] |};
  {| name := "2013_SG1";
     vis_template := "AA_Tau_2013_SG1.spw{spw}.selfcal.ms.contsub_fit1";
     width := "0.2km/s";
     lines := [
       {| spw := 0; molecule := "HCN"; line_freq := 265.8864343;
          restfreqs := [265.8848912; 265.8861886; 265.8864339; 265.8864343;
                        265.8864999; 265.8885221]%float |};
       {| spw := 1; molecule := "HCO+"; line_freq := 267.5576259;
          restfreqs := [267.5576259]%float |}
     ] |};
  {| name := "2015_SG1";
     vis_template := "AA_Tau_2015_SG1.spw{spw}.selfcal.ms.contsub_fit1";
     width := "0.2km/s";
     lines := [
       {| spw := 1; molecule := "CN_SPW1"; line_freq := 340.24777;
          restfreqs := [340.24777; 340.248544; 340.2617734; 340.264949;
                        340.2791201]%float |};
       {| spw := 3; molecule := "CN_SPW3"; line_freq := 340.0315494;
          restfreqs := [340.0081263; 340.0196255; 340.0315494; 340.035408]%float |};
       {| spw := 5; molecule := "C18O"; line_freq := 329.3305525;
          restfreqs := [329.3305525]%float |};
       {| spw := 6; molecule := "13CO"; line_freq := 330.5879653;
          restfreqs := [330.5879653]%float |}
     ] |}
].

(** The module-level names the procedure reads.  Python module globals are
    mutable, so they live in the program state. *)
Record Globals := {
  mask_params : MaskParams;
  tclean_common_params : TcleanCommon;
  rms_channels : string;
  rms_multiplier : float;
  max_iterations : Z;
  datasets : list DatasetSpec;
}.

Definition initial_globals : Globals := {|
  mask_params := MASK_PARAMS;
  tclean_common_params := TCLEAN_COMMON_PARAMS;
  rms_channels := RMS_CHANNELS;
  rms_multiplier := RMS_MULTIPLIER;
  max_iterations := MAX_ITERATIONS;
  datasets := DATASETS;
|}.

End Config.

(* ====================================================================== *)
(** ** External calls, exceptions and the procedure *)
(* ====================================================================== *)

Module Casa.
Import Config.

(** Python exceptions.  [except Exception] catches the instances of
    [Exception]; [KeyboardInterrupt] and [SystemExit] derive from
    [BaseException] only. *)
Inductive exn :=
| IndexError
| KeyError (key : string)
| ValueError
| TypeError
| OtherException (cls : string)
| KeyboardInterrupt
| SystemExit.

Definition is_Exception (e : exn) : bool :=
  match e with
  | KeyboardInterrupt | SystemExit => false
  | _ => true
  end.

(** Keyword arguments of the external calls. *)
Record tclean_args := {
  tc_vis : string;
  tc_imagename : string;
  tc_mask : option string;
  tc_width : string;
  tc_restfreq : string;
  tc_threshold : string;
  tc_niter : Z;
  tc_common : TcleanCommon;
}.

Record make_mask_args := {
  mm_image : string;
  mm_restfreqs : list float;
  mm_params : MaskParams;
}.

Record exportfits_args := {
  ef_imagename : string;
  ef_fitsimage : string;
  ef_overwrite : bool;
  ef_dropstokes : bool;
}.

Inductive call :=
| Tclean (a : tclean_args)
| MakeMask (a : make_mask_args)
| Imstat (imagename chans : string)
| PathExists (path : string)
| Makedirs (path : string)
| Exportfits (a : exportfits_args)
| Print (text : string).

(** The value [imstat] returns: [None], or a dictionary from statistic
    names to sequences of numbers (Python floats). *)
Abbreviation stats_value := (option (gmap string (list float))).

(** How a call ended. *)
Inductive response :=
| Returns
| ReturnsBool (b : bool)
| ReturnsStats (stats : stats_value)
| Raises (e : exn).

(** What the program did to the outside world and what came back. *)
Abbreviation event := (call * response)%type.

(** The behaviour of the external engines: each call returns or raises,
    possibly depending on what happened before it.  The engines are
    observed through their results only; they never assign the script's
    module globals. *)
Record engine := {
  on_tclean : list event -> tclean_args -> option exn;
  on_make_mask : list event -> make_mask_args -> option exn;
  on_imstat : list event -> string -> string -> exn + stats_value;
  on_exists : list event -> string -> bool;
  on_makedirs : list event -> string -> option exn;
  on_exportfits : list event -> exportfits_args -> option exn;
}.

Record state := {
  globals : Globals;
  trace : list event;
}.

Inductive result (A : Type) :=
| Ok (a : A)
| Raise (e : exn).
Arguments Ok {A} a.
Arguments Raise {A} e.

(** Computations that read the globals, extend the trace and may raise. *)
Definition M (A : Type) : Type := state -> result A * state.

Definition ret {A} (a : A) : M A := fun st => (Ok a, st).

Definition bind {A B} (m : M A) (k : A -> M B) : M B :=
  fun st =>
    match m st with
    | (Ok a, st') => k a st'
    | (Raise e, st') => (Raise e, st')
    end.

Notation "'do' x <- m ; k" := (bind m (fun x => k))
  (at level 10, x name, m at level 100, k at level 200).

(** Reading a module global. *)
Definition read {A} (f : Globals -> A) : M A := fun st => (Ok (f (globals st)), st).

(** A pure computation that may raise. *)
Definition lift {A} (r : result A) : M A := fun st => (r, st).

Definition log (c : call) (r : response) (st : state) : state :=
  {| globals := globals st; trace := trace st ++ [(c, r)] |}.

(** [try: body / except Exception: handler] *)
Definition try_except_Exception (body handler : M unit) : M unit :=
  fun st =>
    match body st with
    | (Raise e, st') => if is_Exception e then handler st' else (Raise e, st')
    | r => r
    end.

(** [for x in xs: body(x)] *)
Fixpoint for_each {A} (xs : list A) (body : A -> M unit) : M unit :=
  match xs with
  | [] => ret tt
  | x :: xs' => do _ <- body x; for_each xs' body
  end.

(** A call whose value is not used: it returns or raises. *)
Definition returns_or_raises (c : call) (r : option exn) : M unit :=
  fun st =>
    match r with
    | None => (Ok tt, log c Returns st)
    | Some e => (Raise e, log c (Raises e) st)
    end.

Section Engine.

Variable env : engine.

Definition tclean (a : tclean_args) : M unit :=
  fun st => returns_or_raises (Tclean a) (on_tclean env (trace st) a) st.

Definition make_mask (a : make_mask_args) : M unit :=
  fun st => returns_or_raises (MakeMask a) (on_make_mask env (trace st) a) st.

Definition imstat (imagename chans : string) : M stats_value :=
  fun st =>
    match on_imstat env (trace st) imagename chans with
    | inr v => (Ok v, log (Imstat imagename chans) (ReturnsStats v) st)
    | inl e => (Raise e, log (Imstat imagename chans) (Raises e) st)
    end.

Definition path_exists (path : string) : M bool :=
  fun st =>
    let b := on_exists env (trace st) path in
    (Ok b, log (PathExists path) (ReturnsBool b) st).

Definition makedirs (path : string) : M unit :=
  fun st => returns_or_raises (Makedirs path) (on_makedirs env (trace st) path) st.

Definition exportfits (a : exportfits_args) : M unit :=
  fun st => returns_or_raises (Exportfits a) (on_exportfits env (trace st) a) st.

Definition print (text : string) : M unit :=
  fun st => (Ok tt, log (Print text) Returns st).

End Engine.

(** *** The pieces of [clean_line] *)

(** Lines 188-194: the directory of the continuum-subtracted visibilities. *)
Definition contsub_dir (dataset_config : DatasetSpec) : string :=
  let dataset_name_short := PyStr.str_replace "_" "" (name dataset_config) in
  if String.eqb (name dataset_config) "2015_SG1" then "contsub_2015"
  else "contsub_" +:+ dataset_name_short.

(** Lines 196-197. *)
Definition vis_file (base_path : string) (dataset_config : DatasetSpec)
    (line_config : LineSpec) : result string :=
  let contsub_path := PyStr.path_join base_path [contsub_dir dataset_config] in
  match PyStr.str_format_spw (vis_template dataset_config) (spw line_config) with
  | inr formatted => Ok (PyStr.path_join contsub_path [formatted])
  | inl (PyStr.FormatKeyError f) => Raise (KeyError f)
  | inl PyStr.FormatIndexError => Raise IndexError
  | inl PyStr.FormatValueError => Raise ValueError
  end.

(** Lines 200-205. *)
Definition output_prefix (output_path : string) (line_config : LineSpec) : string :=
  PyStr.path_join output_path ["AATau_" +:+ molecule line_config +:+ "_contsub"].

Definition clean0_imagename (output_path : string) (line_config : LineSpec) : string :=
  output_prefix output_path line_config +:+ "_clean0".

Definition clean0_image (output_path : string) (line_config : LineSpec) : string :=
  clean0_imagename output_path line_config +:+ ".image".

Definition clean1_imagename (output_path : string) (line_config : LineSpec) : string :=
  output_prefix output_path line_config +:+ "_clean1".

Definition clean1_image (output_path : string) (line_config : LineSpec) : string :=
  clean1_imagename output_path line_config +:+ ".image".

Definition mask_image (output_path : string) (line_config : LineSpec) : string :=
  clean0_imagename output_path line_config +:+ ".mask.image".

(** Lines 209-217: the keyword arguments of the dirty pass. *)
Definition dirty_pass (common : TcleanCommon) (vis output_path : string)
    (dataset_config : DatasetSpec) (line_config : LineSpec) : tclean_args := {|
  tc_vis := vis;
  tc_imagename := clean0_imagename output_path line_config;
  tc_mask := None;
  tc_width := width dataset_config;
  tc_restfreq := PyFloat.py_str (line_freq line_config) +:+ "GHz";
  tc_threshold := "5mJy";
  tc_niter := 0;
  tc_common := common;
|}.

(** Lines 221-225: the keyword arguments of the masking routine. *)
Definition mask_request (params : MaskParams) (output_path : string)
    (line_config : LineSpec) : make_mask_args := {|
  mm_image := clean0_image output_path line_config;
  mm_restfreqs := map (fun freq => (freq * 1e9)%float) (restfreqs line_config);
  mm_params := params;
|}.

(** Lines 240-249: the keyword arguments of the final pass. *)
Definition final_pass (common : TcleanCommon) (niter : Z) (vis output_path : string)
    (dataset_config : DatasetSpec) (line_config : LineSpec)
    (threshold_str : string) : tclean_args := {|
  tc_vis := vis;
  tc_imagename := clean1_imagename output_path line_config;
  tc_mask := Some (mask_image output_path line_config);
  tc_width := width dataset_config;
  tc_restfreq := PyFloat.py_str (line_freq line_config) +:+ "GHz";
  tc_threshold := threshold_str;
  tc_niter := niter;
  tc_common := common;
|}.

(** Truth value of the statistics object: [None] and the empty dictionary
    are false. *)
Definition truthy (stats : stats_value) : bool :=
  match stats with
  | None => false
  | Some d => negb (Nat.eqb (size d) 0)
  end.

(** ['rms' in stats] *)
Definition has_rms (stats : stats_value) : bool :=
  match stats with
  | Some d => match d !! "rms" with Some _ => true | None => false end
  | None => false
  end.

(** [stats['rms'][0]] *)
Definition rms_first (stats : stats_value) : result float :=
  match stats with
  | None => Raise TypeError
  | Some d =>
      match d !! "rms" with
      | None => Raise (KeyError "rms")
      | Some values =>
          match values !! 0%nat with
          | None => Raise IndexError
          | Some x => Ok x
          end
      end
  end.

(** Line 231: [stats and 'rms' in stats and stats['rms'][0] > 0], with the
    short-circuit evaluation of [and]. *)
Definition rms_guard (stats : stats_value) : result bool :=
  if truthy stats then
    if has_rms stats then
      match rms_first stats with
      | Ok x => Ok (PyFloat.gt_zero x)
      | Raise e => Raise e
      end
    else Ok false
  else Ok false.

(** Line 253. *)
Definition fits_dir (base_path : string) : string :=
  PyStr.path_join base_path ["aatau-alma-analysis"; "fits_products"].

(** Lines 258-259. *)
Definition export_image (base_path output_path : string) (line_config : LineSpec)
    : exportfits_args := {|
  ef_imagename := clean1_image output_path line_config;
  ef_fitsimage :=
    PyStr.path_join (fits_dir base_path)
      [PyStr.path_basename (clean1_imagename output_path line_config) +:+ ".fits"];
  ef_overwrite := true;
  ef_dropstokes := true;
|}.

(** Lines 262-263. *)
Definition export_mask (base_path output_path : string) (line_config : LineSpec)
    : exportfits_args := {|
  ef_imagename := mask_image output_path line_config;
  ef_fitsimage :=
    PyStr.path_join (fits_dir base_path)
      [PyStr.path_basename (clean0_imagename output_path line_config) +:+ ".mask.fits"];
  ef_overwrite := true;
  ef_dropstokes := true;
|}.

Section Procedure.

Variable env : engine.

(** Lines 229-236: the statistics of the line-free channels and the
    threshold of the final pass. *)
Definition rms_threshold (image : string) : M string :=
  do chans <- read rms_channels;
  do stats <- imstat env image chans;
  do positive <- lift (rms_guard stats);
  if positive then
    do rms_val <- lift (rms_first stats);
    do multiplier <- read rms_multiplier;
    let threshold_val := PyFloat.py_round (1000 * multiplier * rms_val)%float 1%N in
    ret (PyFloat.py_str threshold_val +:+ "mJy")
  else ret "10mJy".

Definition clean_line (base_path output_path : string)
    (dataset_config : DatasetSpec) (line_config : LineSpec) : M unit :=
  do vis <- lift (vis_file base_path dataset_config line_config);
  (* Step 1: initial dirty clean *)
  do common <- read tclean_common_params;
  do _ <- tclean env (dirty_pass common vis output_path dataset_config line_config);
  (* Step 2: Keplerian mask *)
  do params <- read mask_params;
  do _ <- make_mask env (mask_request params output_path line_config);
  (* Step 3: RMS threshold *)
  do threshold_str <- rms_threshold (clean0_image output_path line_config);
  (* Step 4: final clean with mask *)
  do niter <- read max_iterations;
  do common <- read tclean_common_params;
  do _ <- tclean env (final_pass common niter vis output_path dataset_config line_config
                        threshold_str);
  (* Step 5: export to FITS *)
  do present <- path_exists env (fits_dir base_path);
  do _ <- (if negb present then makedirs env (fits_dir base_path) else ret tt);
  do _ <- exportfits env (export_image base_path output_path line_config);
  exportfits env (export_mask base_path output_path line_config).

(** Lines 270-271. *)
Definition base_path : string := "/Users/jea/AATau".

Definition output_path : string :=
  PyStr.path_join base_path ["aatau-alma-analysis"; "casa_images"].

(** Lines 280-284: one iteration of the inner loop. *)
Definition process_line (dataset : DatasetSpec) (line : LineSpec) : M unit :=
  try_except_Exception (clean_line base_path output_path dataset line) (ret tt).

(** Lines 278-284. *)
Definition process_all (all : list DatasetSpec) : M unit :=
  for_each all (fun dataset => for_each (lines dataset) (process_line dataset)).

Fixpoint str_repeat (s : string) (n : nat) : string :=
  match n with O => EmptyString | S k => s +:+ str_repeat s k end.

Definition newline : string := String (ascii_of_nat 10) EmptyString.

Definition main : M unit :=
  do present <- path_exists env output_path;
  do _ <- (if negb present then makedirs env output_path else ret tt);
  do all <- read datasets;
  do _ <- process_all all;
  do _ <- print (newline +:+ str_repeat "=" 80);
  do _ <- print "ALL CLEANING COMPLETE";
  do _ <- print (str_repeat "=" 80);
  do _ <- print (newline +:+ "Output files located in:");
  do _ <- print ("  CASA images: " +:+ output_path);
  do _ <- print ("  FITS files: "
                 +:+ PyStr.path_join base_path ["aatau-alma-analysis"; "fits_products"]);
  print "".

End Procedure.

(** *** Observing a run *)

(** The events a computation adds to the trace. *)
Definition new_events {A} (m : M A) (st : state) : list event :=
  drop (length (trace st)) (trace (snd (m st))).

Definition tclean_calls (evs : list event) : list tclean_args :=
  omap (fun ev => match fst ev with Tclean a => Some a | _ => None end) evs.

Definition mask_calls (evs : list event) : list make_mask_args :=
  omap (fun ev => match fst ev with MakeMask a => Some a | _ => None end) evs.

Definition export_calls (evs : list event) : list exportfits_args :=
  omap (fun ev => match fst ev with Exportfits a => Some a | _ => None end) evs.

(** The state in which [main] starts. *)
Definition initial_state : state := {| globals := initial_globals; trace := [] |}.


(** *** Describing a run of [clean_line] *)

(** The state after the events [evs]. *)
Definition extended (st : state) (evs : list event) : state :=
  {| globals := globals st; trace := trace st ++ evs |}.

(** The final pass is the [tclean] call that is given a mask. *)
Definition final_pass_calls (evs : list event) : list tclean_args :=
  List.filter (fun a => match tc_mask a with Some _ => true | None => false end)
    (tclean_calls evs).

(** The pure part of lines 231-236: the threshold text from the
    statistics. *)
Definition threshold_of (multiplier : float) (stats : stats_value) : result string :=
  match rms_guard stats with
  | Ok true =>
      match rms_first stats with
      | Ok rms_val =>
          Ok (PyFloat.py_str (PyFloat.py_round (1000 * multiplier * rms_val)%float 1%N)
              +:+ "mJy")
      | Raise e => Raise e
      end
  | Ok false => Ok "10mJy"
  | Raise e => Raise e
  end.

Section Outcome.

Variables (g : Globals) (base out : string) (ds : DatasetSpec) (line : LineSpec).

Definition dirty (vis : string) : call :=
  Tclean (dirty_pass (tclean_common_params g) vis out ds line).

Definition masking : call := MakeMask (mask_request (mask_params g) out line).

Definition statistics : call := Imstat (clean0_image out line) (rms_channels g).

Definition final (vis thr : string) : call :=
  Tclean (final_pass (tclean_common_params g) (max_iterations g) vis out ds line thr).

Definition probe : call := PathExists (fits_dir base).

Definition mkdir : call := Makedirs (fits_dir base).

Definition to_fits_image : call := Exportfits (export_image base out line).

Definition to_fits_mask : call := Exportfits (export_mask base out line).

(** Steps 1 to 4, all returned. *)
Definition imaged (vis : string) (stats : stats_value) (thr : string) : list event :=
  [(dirty vis, Returns); (masking, Returns); (statistics, ReturnsStats stats);
   (final vis thr, Returns)].

(** Lines 254-255, the directory created when it was absent. *)
Definition dir_checked (present : bool) : list event :=
  (probe, ReturnsBool present) :: (if present then [] else [(mkdir, Returns)]).

(** The ways one run of [clean_line] can end, with the events it leaves:
    one constructor per exit point of the procedure. *)
Inductive outcome : result unit -> list event -> Prop :=
| bad_template e :
    vis_file base ds line = Raise e ->
    outcome (Raise e) []
| dirty_raises vis e :
    vis_file base ds line = Ok vis ->
    outcome (Raise e) [(dirty vis, Raises e)]
| mask_raises vis e :
    vis_file base ds line = Ok vis ->
    outcome (Raise e) [(dirty vis, Returns); (masking, Raises e)]
| imstat_raises vis e :
    vis_file base ds line = Ok vis ->
    outcome (Raise e) [(dirty vis, Returns); (masking, Returns); (statistics, Raises e)]
| guard_raises vis stats e :
    vis_file base ds line = Ok vis ->
    threshold_of (rms_multiplier g) stats = Raise e ->
    outcome (Raise e)
      [(dirty vis, Returns); (masking, Returns); (statistics, ReturnsStats stats)]
| final_raises vis stats thr e :
    vis_file base ds line = Ok vis ->
    threshold_of (rms_multiplier g) stats = Ok thr ->
    outcome (Raise e)
      [(dirty vis, Returns); (masking, Returns); (statistics, ReturnsStats stats);
       (final vis thr, Raises e)]
| makedirs_raises vis stats thr e :
    vis_file base ds line = Ok vis ->
    threshold_of (rms_multiplier g) stats = Ok thr ->
    outcome (Raise e)
      (imaged vis stats thr ++ [(probe, ReturnsBool false); (mkdir, Raises e)])
| export_image_raises vis stats thr present e :
    vis_file base ds line = Ok vis ->
    threshold_of (rms_multiplier g) stats = Ok thr ->
    outcome (Raise e)
      (imaged vis stats thr ++ dir_checked present ++ [(to_fits_image, Raises e)])
| export_mask_raises vis stats thr present e :
    vis_file base ds line = Ok vis ->
    threshold_of (rms_multiplier g) stats = Ok thr ->
    outcome (Raise e)
      (imaged vis stats thr ++ dir_checked present
       ++ [(to_fits_image, Returns); (to_fits_mask, Raises e)])
| completes vis stats thr present :
    vis_file base ds line = Ok vis ->
    threshold_of (rms_multiplier g) stats = Ok thr ->
    outcome (Ok tt)
      (imaged vis stats thr ++ dir_checked present
       ++ [(to_fits_image, Returns); (to_fits_mask, Returns)]).

End Outcome.

(** *** The words of the specification *)

(** The RMS read from the statistics, when there is one. *)
Definition reported_rms (stats : stats_value) : option float :=
  match rms_first stats with
  | Ok rms => Some rms
  | Raise _ => None
  end.

(** "[round(2000 x RMS, 1)] mJy when RMS > 0; 10 mJy otherwise". *)
Definition spec_threshold (rms : option float) : string :=
  match rms with
  | Some r =>
      if PyFloat.gt_zero r
      then PyFloat.py_str (PyFloat.py_round (2000 * r)%float 1%N) +:+ "mJy"
      else "10mJy"
  | None => "10mJy"
  end.

(** "The identifier with underscores removed". *)
Fixpoint remove_underscores (s : string) : string :=
  match s with
  | EmptyString => EmptyString
  | String c s' =>
      if Ascii.eqb c "_" then remove_underscores s' else String c (remove_underscores s')
  end.

(** "Prefixed [contsub_]", with the one irregular identifier. *)
Definition spec_contsub_dir (identifier : string) : string :=
  if String.eqb identifier "2015_SG1" then "contsub_2015"
  else "contsub_" +:+ remove_underscores identifier.

(** *** The batch *)

(** The (dataset, line) pairs in the order the nested loops visit them. *)
Definition batch (all : list DatasetSpec) : list (DatasetSpec * LineSpec) :=
  flat_map (fun dataset => map (pair dataset) (lines dataset)) all.

(** The state in which the loop starts on position [n] of the batch;
    [None] when it never gets there. *)
Fixpoint state_before (env : engine) (items : list (DatasetSpec * LineSpec)) (n : nat)
    (st : state) : option state :=
  match items, n with
  | [], _ => None
  | _ :: _, O => Some st
  | (dataset, line) :: rest, S k =>
      match process_line env dataset line st with
      | (Ok _, st') => state_before env rest k st'
      | (Raise _, _) => None
      end
  end.

(** A computation that leaves the module globals as they were. *)
Definition keeps_globals {A} (m : M A) : Prop :=
  forall st, globals (snd (m st)) = globals st.

(** *** Engines and inputs for concrete runs *)

(** Every call returns; [imstat] reports [stats]; no directory exists yet. *)
Definition steady (stats : stats_value) : engine := {|
  on_tclean := fun _ _ => None;
  on_make_mask := fun _ _ => None;
  on_imstat := fun _ _ _ => inr stats;
  on_exists := fun _ _ => false;
  on_makedirs := fun _ _ => None;
  on_exportfits := fun _ _ => None;
|}.

(** [tclean] fails with [e] on the cube named [imagename] and returns on
    every other. *)
Definition failing_on (imagename : string) (e : exn) : engine := {|
  on_tclean := fun _ a => if String.eqb (tc_imagename a) imagename then Some e else None;
  on_make_mask := fun _ _ => None;
  on_imstat := fun _ _ _ => inr (Some {[ "rms" := [0.003%float] ]});
  on_exists := fun _ _ => true;
  on_makedirs := fun _ _ => None;
  on_exportfits := fun _ _ => None;
|}.

Definition line_N2H : LineSpec := {|
  spw := 0;
  molecule := "N2H+";
  line_freq := 279.5117491;
  restfreqs := [279.5117491]%float;
|}.

Definition line_DCO : LineSpec := {|
  spw := 2;
  molecule := "DCO+";
  line_freq := 288.1438583;
  restfreqs := [288.1438583]%float;
|}.

Definition line_HCN : LineSpec := {|
  spw := 0;
  molecule := "HCN";
  line_freq := 265.8864343;
  restfreqs := [265.8848912; 265.8861886; 265.8864339; 265.8864343;
                265.8864999; 265.8885221]%float;
|}.

Definition dataset_2013_SG2 : DatasetSpec := {|
  name := "2013_SG2";
  vis_template := "AA_Tau_2013_SG2.spw{spw}.selfcal.ms.contsub_fit1";
  width := "0.3km/s";
  lines := [line_N2H; line_DCO;
            {| spw := 6; molecule := "H2CO"; line_freq := 290.623405;
               restfreqs := [290.623405]%float |}];
|}.

(** *** Further vocabulary: the batch and the banner *)

(** The texts printed, in order. *)
Definition printed (evs : list event) : list string :=
  omap (fun ev => match fst ev with Print text => Some text | _ => None end) evs.

(** The cubes of the dirty passes: the image names of the [tclean] calls
    that are given no mask. *)
Definition dirty_names (evs : list event) : list string :=
  omap (fun ev =>
          match fst ev with
          | Tclean a =>
              match tc_mask a with
              | None => Some (tc_imagename a)
              | Some _ => None
              end
          | _ => None
          end) evs.

(** The [imstat] calls of a run, by image and channel range. *)
Definition imstat_calls (evs : list event) : list (string * string) :=
  omap (fun ev => match fst ev with Imstat i c => Some (i, c) | _ => None end) evs.

(** Lines 286-292: what [main] prints once the loop is over. *)
Definition banner : list string :=
  [newline +:+ str_repeat "=" 80;
   "ALL CLEANING COMPLETE";
   str_repeat "=" 80;
   newline +:+ "Output files located in:";
   "  CASA images: " +:+ output_path;
   "  FITS files: " +:+ PyStr.path_join base_path ["aatau-alma-analysis"; "fits_products"];
   ""].

Definition banner_events : list event := map (fun text => (Print text, Returns)) banner.

(** Lines 273-275: the check of the output directory, and its creation
    when it was absent. *)
Definition output_dir_checked (present : bool) : list event :=
  (PathExists output_path, ReturnsBool present)
  :: (if present then [] else [(Makedirs output_path, Returns)]).

(** The body of the loop on one position of the batch. *)
Definition process_item (env : engine) (item : DatasetSpec * LineSpec) : M unit :=
  process_line env item.1 item.2.

(** The ways [main] can end, with the events it leaves. *)
Inductive main_outcome (env : engine) (st : state) : result unit -> list event -> Prop :=
| cannot_create_output_dir e :
    main_outcome env st (Raise e)
      [(PathExists output_path, ReturnsBool false); (Makedirs output_path, Raises e)]
| loop_escaped present loop e :
    for_each (batch (datasets (globals st))) (process_item env)
      (extended st (output_dir_checked present))
    = (Raise e, extended (extended st (output_dir_checked present)) loop) ->
    main_outcome env st (Raise e) (output_dir_checked present ++ loop)
| all_lines_visited present loop :
    for_each (batch (datasets (globals st))) (process_item env)
      (extended st (output_dir_checked present))
    = (Ok tt, extended (extended st (output_dir_checked present)) loop) ->
    main_outcome env st (Ok tt) (output_dir_checked present ++ loop ++ banner_events).

(** The pass-0 cubes of the positions of a batch whose visibility path can
    be built, in order. *)
Definition attempted_names (items : list (DatasetSpec * LineSpec)) : list string :=
  flat_map (fun item =>
              match vis_file base_path item.1 item.2 with
              | Ok _ => [clean0_imagename output_path item.2]
              | Raise _ => []
              end) items.

(** Template text without braces. *)
Definition brace_free (s : string) : bool :=
  negb (PyStr.has_char "{" s) && negb (PyStr.has_char "}" s).

(** A decimal digit. *)
Definition digit_char (c : ascii) : bool :=
  ((48 <=? nat_of_ascii c) && (nat_of_ascii c <=? 57))%nat.

(** A letter, a digit or an underscore. *)
Definition identifier_char (c : ascii) : bool :=
  ((65 <=? nat_of_ascii c) && (nat_of_ascii c <=? 90)
   || (97 <=? nat_of_ascii c) && (nat_of_ascii c <=? 122)
   || (nat_of_ascii c =? 95)
   || digit_char c)%nat.

Fixpoint identifier_chars (s : string) : bool :=
  match s with
  | EmptyString => true
  | String c s' => identifier_char c && identifier_chars s'
  end.

(** A field name that [str.format] looks up among the keyword arguments
    and does not find when the only keyword is [spw]: an identifier other
    than [spw]. *)
Definition unknown_keyword (f : string) : bool :=
  match f with
  | EmptyString => false
  | String c _ => negb (digit_char c) && identifier_chars f && negb (String.eqb f "spw")
  end.

(** What [posixpath.join] puts before a relative last component. *)
Definition join_prefix (dir : string) : string :=
  if String.eqb dir "" || PyStr.endswith_char "/" dir then dir else dir +:+ "/".

(** The output directory cannot be created. *)
Definition read_only_disk (e : exn) : engine := {|
  on_tclean := fun _ _ => None;
  on_make_mask := fun _ _ => None;
  on_imstat := fun _ _ _ => inr None;
  on_exists := fun _ _ => false;
  on_makedirs := fun _ _ => Some e;
  on_exportfits := fun _ _ => None;
|}.

(** Every [tclean] call fails with [e]. *)
Definition broken_tclean (e : exn) : engine := {|
  on_tclean := fun _ _ => Some e;
  on_make_mask := fun _ _ => None;
  on_imstat := fun _ _ _ => inr None;
  on_exists := fun _ _ => true;
  on_makedirs := fun _ _ => None;
  on_exportfits := fun _ _ => None;
|}.

(** What the loop can rely on about the events of one line. *)
Record line_events (ds : DatasetSpec) (line : LineSpec) (evs : list event) : Prop := {
  line_prints_nothing : printed evs = [];
  line_at_most_eight : (length evs <= 8)%nat;
  line_dirty_names :
    dirty_names evs
    = match vis_file base_path ds line with
      | Ok _ => [clean0_imagename output_path line]
      | Raise _ => []
      end;
  line_makedirs :
    forall path r, In (Makedirs path, r) evs -> path = fits_dir base_path;
}.

(** What [main] can rely on about the events of the whole loop. *)
Record loop_events (items : list (DatasetSpec * LineSpec)) (r : result unit)
    (evs : list event) : Prop := {
  loop_prints_nothing : printed evs = [];
  loop_bounded : (length evs <= 8 * length items)%nat;
  loop_dirty_names : r = Ok tt -> dirty_names evs = attempted_names items;
  loop_escape : forall e, r = Raise e -> is_Exception e = false;
  loop_makedirs :
    forall path r', In (Makedirs path, r') evs -> path = fits_dir base_path;
}.

End Casa.

(* ====================================================================== *)
(** * Properties *)
(* ====================================================================== *)

Import Config Casa.

(** ** The string and number models on the values of the script *)

Example replace_ex : PyStr.str_replace "_" "" "2013_SG2" = "2013SG2".
Proof. reflexivity. Qed.
Example replace_multi_ex : PyStr.str_replace "ab" "x" "ababa_ab" = "xxa_x".
Proof. reflexivity. Qed.
Example join_ex : PyStr.path_join "/Users/jea/AATau" ["aatau-alma-analysis"; "casa_images"]
                  = "/Users/jea/AATau/aatau-alma-analysis/casa_images".
Proof. reflexivity. Qed.
Example join_abs_ex : PyStr.path_join "/a/" ["b"; "/c"; "d"] = "/c/d".
Proof. reflexivity. Qed.
Example basename_ex : PyStr.path_basename "/x/y/AATau_N2H+_contsub_clean1" = "AATau_N2H+_contsub_clean1".
Proof. reflexivity. Qed.
Example format_ex :
  PyStr.str_format_spw "AA_Tau_2013_SG2.spw{spw}.selfcal.ms.contsub_fit1" 6
  = inr "AA_Tau_2013_SG2.spw6.selfcal.ms.contsub_fit1".
Proof. reflexivity. Qed.
Example str_shortest_ex : PyFloat.py_str (0.1 + 0.2) = "0.30000000000000004".
Proof. vm_compute. reflexivity. Qed.
Example str_catalogue_ex : PyFloat.py_str 279.5117491 = "279.5117491".
Proof. vm_compute. reflexivity. Qed.
Example str_scientific_ex :
  map PyFloat.py_str [1e22; 1e16; 0.00001; 0.0001; 5e-324]%float
  = ["1e+22"; "1e+16"; "1e-05"; "0.0001"; "5e-324"].
Proof. vm_compute. reflexivity. Qed.
Example str_tie_ex :
  map PyFloat.py_str [633232432505187.75; 633232432505187.25]%float
  = ["633232432505187.8"; "633232432505187.2"].
Proof. vm_compute. reflexivity. Qed.
Example format_errors_ex :
  map (fun t => PyStr.str_format_spw t 3) ["a{spw}{{b}}"; "{0}"; "{name}"; "{spw"; "}"]
  = [inr "a3{b}"; inl PyStr.FormatIndexError; inl (PyStr.FormatKeyError "name");
     inl PyStr.FormatValueError; inl PyStr.FormatValueError].
Proof. reflexivity. Qed.
Example round_ex :
  map (fun x => PyFloat.py_str (PyFloat.py_round x 1%N)) [0.15; 0.25; 2.675; 123.456; -0.01]%float
  = ["0.1"; "0.2"; "2.7"; "123.5"; "-0.0"].
Proof. vm_compute. reflexivity. Qed.

(** ** Sequencing laws *)

Lemma bind_lift_ok {A B} (a : A) (k : A -> M B) st :
  bind (lift (Ok a)) k st = k a st.
Proof. reflexivity. Qed.

Lemma bind_read {A B} (f : Globals -> A) (k : A -> M B) st :
  bind (read f) k st = k (f (globals st)) st.
Proof. reflexivity. Qed.

Section Steps.

Variable env : engine.
Context {B : Type}.
Implicit Types (k : unit -> M B) (st : state).

Lemma bind_tclean a k st :
  bind (tclean env a) k st =
  match on_tclean env (trace st) a with
  | None => k tt (log (Tclean a) Returns st)
  | Some e => (Raise e, log (Tclean a) (Raises e) st)
  end.
Proof. unfold bind, tclean, returns_or_raises. by destruct (on_tclean _ _ _). Qed.

Lemma bind_make_mask a k st :
  bind (make_mask env a) k st =
  match on_make_mask env (trace st) a with
  | None => k tt (log (MakeMask a) Returns st)
  | Some e => (Raise e, log (MakeMask a) (Raises e) st)
  end.
Proof. unfold bind, make_mask, returns_or_raises. by destruct (on_make_mask _ _ _). Qed.

Lemma bind_makedirs path k st :
  bind (makedirs env path) k st =
  match on_makedirs env (trace st) path with
  | None => k tt (log (Makedirs path) Returns st)
  | Some e => (Raise e, log (Makedirs path) (Raises e) st)
  end.
Proof. unfold bind, makedirs, returns_or_raises. by destruct (on_makedirs _ _ _). Qed.

Lemma bind_exportfits a k st :
  bind (exportfits env a) k st =
  match on_exportfits env (trace st) a with
  | None => k tt (log (Exportfits a) Returns st)
  | Some e => (Raise e, log (Exportfits a) (Raises e) st)
  end.
Proof. unfold bind, exportfits, returns_or_raises. by destruct (on_exportfits _ _ _). Qed.

Lemma bind_path_exists path (k : bool -> M B) st :
  bind (path_exists env path) k st =
  k (on_exists env (trace st) path)
    (log (PathExists path) (ReturnsBool (on_exists env (trace st) path)) st).
Proof. reflexivity. Qed.

End Steps.

(** ** One run of [clean_line] *)

(** Lines 229-236 are one [imstat] call followed by [threshold_of]. *)
Lemma rms_threshold_run env image st :
  rms_threshold env image st =
  match on_imstat env (trace st) image (rms_channels (globals st)) with
  | inl e => (Raise e, log (Imstat image (rms_channels (globals st))) (Raises e) st)
  | inr stats =>
      (threshold_of (rms_multiplier (globals st)) stats,
       log (Imstat image (rms_channels (globals st))) (ReturnsStats stats) st)
  end.
Proof.
  unfold rms_threshold, threshold_of, bind, read, imstat, lift, ret. simpl.
  destruct (on_imstat _ _ _ _) as [e|stats]; [reflexivity|].
  destruct (rms_guard stats) as [[|]|e]; try reflexivity.
  destruct (rms_first stats); reflexivity.
Qed.

Ltac close_run c :=
  eexists _, _; split;
  [ unfold extended, log; simpl; rewrite <- ?app_assoc; reflexivity
  | by eapply c ].

(** Every run ends in one of the listed ways, whatever the engines do. *)
Lemma clean_line_outcome env base out ds line st :
  exists r evs,
    clean_line env base out ds line st = (r, extended st evs)
    /\ outcome (globals st) base out ds line r evs.
Proof.
  destruct st as [g tr].
  unfold clean_line.
  destruct (vis_file base ds line) as [vis|e] eqn:Hvis.
  2:{ exists (Raise e), []. split; [|by constructor].
      unfold extended, bind, lift. simpl. by rewrite app_nil_r. }
  rewrite bind_lift_ok, bind_read, bind_tclean. simpl.
  destruct (on_tclean env tr _) as [e|]; [close_run dirty_raises|].
  rewrite bind_read, bind_make_mask. simpl.
  destruct (on_make_mask env _ _) as [e|]; [close_run mask_raises|].
  unfold bind at 1. rewrite rms_threshold_run. simpl.
  destruct (on_imstat env _ _ _) as [e|stats]; [close_run imstat_raises|].
  destruct (threshold_of _ stats) as [thr|e] eqn:Hthr; [|close_run guard_raises].
  rewrite !bind_read, bind_tclean. simpl.
  destruct (on_tclean env _ _) as [e|]; [close_run final_raises|].
  rewrite bind_path_exists. simpl.
  destruct (on_exists env _ _) eqn:Hpresent; simpl.
  - unfold bind at 1, ret at 1. rewrite bind_exportfits. simpl.
    destruct (on_exportfits env _ _) as [e|];
      [close_run (export_image_raises g base out ds line vis stats thr true)|].
    unfold exportfits, returns_or_raises.
    destruct (on_exportfits env _ _) as [e|];
      [close_run (export_mask_raises g base out ds line vis stats thr true)|].
    close_run (completes g base out ds line vis stats thr true).
  - rewrite bind_makedirs. simpl.
    destruct (on_makedirs env _ _) as [e|]; [close_run makedirs_raises|].
    rewrite bind_exportfits. simpl.
    destruct (on_exportfits env _ _) as [e|];
      [close_run (export_image_raises g base out ds line vis stats thr false)|].
    unfold exportfits, returns_or_raises.
    destruct (on_exportfits env _ _) as [e|];
      [close_run (export_mask_raises g base out ds line vis stats thr false)|].
    close_run (completes g base out ds line vis stats thr false).
Qed.

Lemma clean_line_sound env base out ds line st :
  outcome (globals st) base out ds line
    (fst (clean_line env base out ds line st))
    (new_events (clean_line env base out ds line) st).
Proof.
  destruct (clean_line_outcome env base out ds line st) as (r & evs & Hrun & Hout).
  unfold new_events. rewrite Hrun. simpl. by rewrite drop_app_length.
Qed.

Lemma clean_line_state env base out ds line st :
  snd (clean_line env base out ds line st)
  = extended st (new_events (clean_line env base out ds line) st).
Proof.
  destruct (clean_line_outcome env base out ds line st) as (r & evs & Hrun & Hout).
  unfold new_events. rewrite Hrun. simpl. by rewrite drop_app_length.
Qed.

Ltac outcome_cases H :=
  inversion H; subst; clear H;
  unfold imaged, dir_checked, final_pass_calls, tclean_calls, mask_calls, export_calls,
    dirty, masking, statistics, final, probe, mkdir, to_fits_image, to_fits_mask in *;
  simpl in *.

Ltac split_in :=
  repeat match goal with
  | Hin : _ \/ _ |- _ => destruct Hin as [Hin|Hin]
  | Hin : False |- _ => destruct Hin
  | Heq : (_, _) = (_, _) |- _ => injection Heq as; subst
  | Heq : ReturnsStats _ = ReturnsStats _ |- _ => injection Heq as; subst
  end.

(** What a final pass in the trace tells about the run. *)
Lemma final_pass_inv g base out ds line r evs a :
  outcome g base out ds line r evs ->
  In a (final_pass_calls evs) ->
  exists vis stats thr,
    vis_file base ds line = Ok vis
    /\ threshold_of (rms_multiplier g) stats = Ok thr
    /\ In (Imstat (clean0_image out line) (rms_channels g), ReturnsStats stats) evs
    /\ a = final_pass (tclean_common_params g) (max_iterations g) vis out ds line thr
    /\ final_pass_calls evs = [a].
Proof.
  intros H Ha. outcome_cases H; try done; try (destruct present; simpl in * );
    split_in; subst; try discriminate; eauto 12.
Qed.

(** What returned statistics in the trace tell about the run. *)
Lemma stats_returned_inv g base out ds line r evs imagename chans stats :
  outcome g base out ds line r evs ->
  In (Imstat imagename chans, ReturnsStats stats) evs ->
  imagename = clean0_image out line /\ chans = rms_channels g
  /\ match threshold_of (rms_multiplier g) stats with
     | Raise e =>
         r = Raise e /\ final_pass_calls evs = [] /\ export_calls evs = []
         /\ last evs = Some (Imstat imagename chans, ReturnsStats stats)
     | Ok thr =>
         exists vis,
           vis_file base ds line = Ok vis
           /\ final_pass_calls evs =
              [final_pass (tclean_common_params g) (max_iterations g) vis out ds line thr]
     end.
Proof.
  intros H Hin. outcome_cases H; try done; try (destruct present; simpl in * );
    split_in; try discriminate;
    match goal with Hthr : threshold_of _ _ = _ |- _ => rewrite Hthr end; eauto 8.
Qed.

(** ** The threshold of the final pass *)

Lemma falsy_no_rms stats : truthy stats = false -> reported_rms stats = None.
Proof.
  destruct stats as [d|]; [|done]. simpl. intros H.
  apply negb_false_iff, Nat.eqb_eq, map_size_empty_inv in H. subst d.
  unfold reported_rms, rms_first. by rewrite lookup_empty.
Qed.

Lemma no_key_no_rms stats : has_rms stats = false -> reported_rms stats = None.
Proof.
  destruct stats as [d|]; [|done]. unfold has_rms, reported_rms, rms_first.
  by destruct (d !! "rms").
Qed.

(** A dictionary with a key is not empty, hence true. *)
Lemma truthy_of_key (d : gmap string (list float)) k v :
  d !! k = Some v -> truthy (Some d) = true.
Proof.
  intros H. simpl. apply negb_true_iff, Nat.eqb_neq.
  by apply (map_size_ne_0_lookup_2 d k).
Qed.

(** With the script's multiplier the code computes what the
    specification says. *)
Lemma threshold_of_spec stats thr :
  threshold_of RMS_MULTIPLIER stats = Ok thr ->
  thr = spec_threshold (reported_rms stats).
Proof.
  unfold threshold_of, rms_guard.
  destruct (truthy stats) eqn:Ht.
  2:{ intros [= <-]. by rewrite falsy_no_rms. }
  destruct (has_rms stats) eqn:Hk.
  2:{ intros [= <-]. by rewrite no_key_no_rms. }
  unfold reported_rms.
  destruct (rms_first stats) as [x|e]; [|done]. simpl.
  destruct (PyFloat.gt_zero x); by intros [= <-].
Qed.

(** The same, read off the dictionary that [imstat] returned: the RMS is
    the first number under ['rms']. *)
Lemma threshold_of_dictionary stats thr :
  threshold_of RMS_MULTIPLIER stats = Ok thr ->
  (forall d r rest, stats = Some d -> d !! "rms" = Some (r :: rest) ->
     thr = if (0 <? r)%float
           then PyFloat.py_str (PyFloat.py_round (2000 * r)%float 1%N) +:+ "mJy"
           else "10mJy")
  /\ ((stats = None \/ exists d, stats = Some d /\ d !! "rms" = None) -> thr = "10mJy")
  /\ (forall d, stats = Some d -> d !! "rms" <> Some []).
Proof.
  intros Hthr. split; [|split].
  - intros d r rest -> Hd. revert Hthr. unfold threshold_of, rms_guard.
    rewrite (truthy_of_key d _ _ Hd). unfold has_rms, rms_first. rewrite Hd. simpl.
    unfold PyFloat.gt_zero. destruct (0 <? r)%float; by intros [= <-].
  - intros Hnone. revert Hthr. unfold threshold_of, rms_guard.
    destruct Hnone as [->|(d & -> & Hd)]; [by intros [= <-]|].
    destruct (truthy (Some d)); [|by intros [= <-]].
    unfold has_rms. rewrite Hd. by intros [= <-].
  - intros d -> Hd. revert Hthr. unfold threshold_of, rms_guard.
    rewrite (truthy_of_key d _ _ Hd). unfold has_rms, rms_first. by rewrite Hd.
Qed.

(** The guard raises exactly on a dictionary whose ['rms'] is empty. *)
Lemma guard_raises_iff stats e :
  rms_guard stats = Raise e
  <-> e = IndexError /\ exists d, stats = Some d /\ d !! "rms" = Some [].
Proof.
  split.
  - unfold rms_guard. destruct (truthy stats); [|done].
    destruct stats as [d|]; [|done]. unfold has_rms, rms_first.
    destruct (d !! "rms") as [[|x values]|] eqn:Hd; simpl; try done.
    intros [= <-]. eauto.
  - intros (-> & d & -> & Hd). unfold rms_guard.
    rewrite (truthy_of_key d _ _ Hd). unfold has_rms, rms_first. by rewrite Hd.
Qed.

Lemma threshold_raises_iff multiplier stats e :
  threshold_of multiplier stats = Raise e <-> rms_guard stats = Raise e.
Proof.
  unfold threshold_of. destruct (rms_guard stats) as [[|]|e'] eqn:Hg;
    [|split; intros; discriminate|split; intros [= ->]; reflexivity].
  split; [|discriminate]. revert Hg. unfold rms_guard.
  destruct (truthy stats); [|discriminate]. destruct (has_rms stats); [|discriminate].
  destruct (rms_first stats); discriminate.
Qed.

(** Once the statistics are returned and the guard can be evaluated, the
    final pass is made, with the threshold of the specification. *)
Lemma final_pass_after_stats env base out ds line tr imagename chans stats :
  let st := {| globals := initial_globals; trace := tr |} in
  let evs := new_events (clean_line env base out ds line) st in
  In (Imstat imagename chans, ReturnsStats stats) evs ->
  (forall d, stats = Some d -> d !! "rms" <> Some []) ->
  exists a, final_pass_calls evs = [a]
            /\ tc_threshold a = spec_threshold (reported_rms stats).
Proof.
  intros st evs Hin Hne.
  pose proof (clean_line_sound env base out ds line st) as Hrun. fold evs in Hrun.
  destruct (stats_returned_inv _ _ _ _ _ _ _ _ _ _ Hrun Hin) as (_ & _ & Hthr).
  simpl in Hthr.
  destruct (threshold_of RMS_MULTIPLIER stats) as [thr|e] eqn:Hthr'.
  - destruct Hthr as (vis & _ & ->). eexists. split; [done|].
    by apply threshold_of_spec.
  - apply threshold_raises_iff, guard_raises_iff in Hthr' as (_ & d & -> & Hd).
    by destruct (Hne d).
Qed.

(** C2. Whatever the engines do, the threshold given to the final pass of
    a line is computed from the RMS that [imstat] reported for channels
    [0~30] of the pass-0 cube, the RMS being the first number under ['rms']
    in the dictionary returned: [round(2000 * RMS, 1)] followed by [mJy]
    when [RMS > 0], and [10mJy] otherwise, in particular for an RMS of
    exactly zero and when no RMS is reported.  The final pass is made once
    the statistics are returned, unless their ['rms'] entry is an empty
    sequence. *)
Theorem final_threshold_from_rms env base out ds line tr :
  let st := {| globals := initial_globals; trace := tr |} in
  let evs := new_events (clean_line env base out ds line) st in
  let pass0_cube :=
    (PyStr.path_join out ["AATau_" +:+ molecule line +:+ "_contsub"] +:+ "_clean0")
    +:+ ".image" in
  let from_rms (r : float) :=
    if (0 <? r)%float
    then PyFloat.py_str (PyFloat.py_round (2000 * r)%float 1%N) +:+ "mJy"
    else "10mJy" in
  let as_specified (stats : stats_value) (threshold : string) :=
    (forall d r rest, stats = Some d -> d !! "rms" = Some (r :: rest) ->
       threshold = from_rms r)
    /\ (forall d rest, stats = Some d -> d !! "rms" = Some (0%float :: rest) ->
          threshold = "10mJy")
    /\ ((stats = None \/ exists d, stats = Some d /\ d !! "rms" = None) ->
          threshold = "10mJy") in
  (forall a, In a (final_pass_calls evs) ->
     exists stats,
       In (Imstat pass0_cube "0~30", ReturnsStats stats) evs
       /\ as_specified stats (tc_threshold a))
  /\ (forall imagename chans stats,
        In (Imstat imagename chans, ReturnsStats stats) evs ->
        (forall d, stats = Some d -> d !! "rms" <> Some []) ->
        imagename = pass0_cube /\ chans = "0~30"
        /\ exists a, final_pass_calls evs = [a] /\ as_specified stats (tc_threshold a)).
Proof.
  intros st evs pass0_cube from_rms as_specified.
  assert (Hspec : forall stats thr,
            threshold_of RMS_MULTIPLIER stats = Ok thr -> as_specified stats thr).
  { intros stats thr (Hrms & Hnone & _)%threshold_of_dictionary.
    split; [done|]. split; [|done]. intros d rest Hs Hd. by rewrite (Hrms d _ _ Hs Hd). }
  pose proof (clean_line_sound env base out ds line st) as Hrun. fold evs in Hrun.
  split.
  - intros a Ha.
    destruct (final_pass_inv _ _ _ _ _ _ _ _ Hrun Ha)
      as (vis & stats & thr & _ & Hthr & Hin & -> & _).
    exists stats. split; [done|]. by apply Hspec.
  - intros imagename chans stats Hin Hne.
    destruct (stats_returned_inv _ _ _ _ _ _ _ _ _ _ Hrun Hin) as (-> & -> & Hthr).
    split; [done|]. split; [done|]. simpl in Hthr.
    destruct (threshold_of RMS_MULTIPLIER stats) as [thr|e] eqn:Hthr'.
    + destruct Hthr as (vis & _ & ->). eexists. split; [done|]. by apply Hspec.
    + apply threshold_raises_iff, guard_raises_iff in Hthr' as (_ & d & -> & Hd).
      by destruct (Hne d).
Qed.

(** The run of the first catalogue line when [imstat] returns the
    dictionary [{'rms': [0.003]}]: the final pass is there and its
    threshold is the one computed from 0.003. *)
Lemma final_threshold_from_rms_witness :
  exists a,
    final_pass_calls
      (new_events
         (clean_line (steady (Some {[ "rms" := [0.003%float] ]})) base_path output_path
            dataset_2013_SG2 line_N2H) initial_state)
    = [a]
    /\ tc_threshold a = "6.0mJy".
Proof.
  unfold initial_state.
  destruct (proj2 (final_threshold_from_rms
                     (steady (Some {[ "rms" := [0.003%float] ]})) base_path output_path
                     dataset_2013_SG2 line_N2H [])
              (clean0_image output_path line_N2H) "0~30"
              (Some {[ "rms" := [0.003%float] ]}))
    as (_ & _ & a & Hcalls & Hrms & _).
  - vm_compute. do 2 right. left. reflexivity.
  - intros d [= <-]. vm_compute. discriminate.
  - exists a. split; [exact Hcalls|].
    rewrite (Hrms {[ "rms" := [0.003%float] ]} 0.003%float [] eq_refl eq_refl).
    vm_compute. reflexivity.
Defined.

(** C5. When [imstat] reports an RMS of 0.003 (which is positive), the
    final pass is made and its threshold is the text [6.0mJy]. *)
Theorem threshold_for_rms_0_003 env base out ds line tr imagename chans stats :
  let st := {| globals := initial_globals; trace := tr |} in
  let evs := new_events (clean_line env base out ds line) st in
  In (Imstat imagename chans, ReturnsStats stats) evs ->
  rms_first stats = Ok 0.003%float ->
  PyFloat.gt_zero 0.003 = true
  /\ exists a, final_pass_calls evs = [a] /\ tc_threshold a = "6.0mJy".
Proof.
  intros st evs Hin Hrms. split; [reflexivity|].
  destruct (final_pass_after_stats env base out ds line tr imagename chans stats Hin)
    as (a & Ha & Hthr).
  - intros d -> Hd. unfold rms_first in Hrms. by rewrite Hd in Hrms.
  - exists a. split; [done|]. rewrite Hthr. unfold reported_rms. rewrite Hrms.
    vm_compute. reflexivity.
Qed.

Lemma threshold_for_rms_0_003_witness :
  exists a,
    final_pass_calls
      (new_events
         (clean_line (steady (Some {[ "rms" := [0.003%float] ]})) base_path output_path
            dataset_2013_SG2 line_N2H) initial_state) = [a]
    /\ tc_threshold a = "6.0mJy".
Proof.
  unfold initial_state.
  apply (threshold_for_rms_0_003
           (steady (Some {[ "rms" := [0.003%float] ]})) base_path output_path
           dataset_2013_SG2 line_N2H []
           (clean0_image output_path line_N2H) "0~30"
           (Some {[ "rms" := [0.003%float] ]})).
  - vm_compute. do 2 right. left. reflexivity.
  - vm_compute. reflexivity.
Defined.

(** C10. When the statistics returned for the pass-0 cube are a dictionary
    whose ['rms'] entry is an empty sequence (a true dictionary that has
    the key), the guard of line 231 raises [IndexError] on element 0: the
    line is abandoned there, with no final pass, hence no 10 mJy fallback,
    and no export. *)
Theorem empty_rms_aborts env base out ds line st imagename chans d :
  let evs := new_events (clean_line env base out ds line) st in
  In (Imstat imagename chans, ReturnsStats (Some d)) evs ->
  d !! "rms" = Some [] ->
  truthy (Some d) = true /\ has_rms (Some d) = true
  /\ rms_guard (Some d) = Raise IndexError
  /\ fst (clean_line env base out ds line st) = Raise IndexError
  /\ final_pass_calls evs = []
  /\ export_calls evs = []
  /\ last evs = Some (Imstat imagename chans, ReturnsStats (Some d)).
Proof.
  intros evs Hin Hd.
  assert (Hg : rms_guard (Some d) = Raise IndexError)
    by (apply guard_raises_iff; eauto).
  split; [by eapply truthy_of_key|].
  split; [unfold has_rms; by rewrite Hd|].
  split; [done|].
  pose proof (clean_line_sound env base out ds line st) as Hrun. fold evs in Hrun.
  destruct (stats_returned_inv _ _ _ _ _ _ _ _ _ _ Hrun Hin) as (_ & _ & Hthr).
  apply (threshold_raises_iff (rms_multiplier (globals st))) in Hg.
  by rewrite Hg in Hthr.
Qed.

Lemma empty_rms_aborts_witness :
  fst (clean_line (steady (Some {[ "rms" := [] ]})) base_path output_path
         dataset_2013_SG2 line_N2H initial_state) = Raise IndexError.
Proof.
  eapply (empty_rms_aborts (steady (Some {[ "rms" := [] ]})) base_path output_path
           dataset_2013_SG2 line_N2H initial_state
           (clean0_image output_path line_N2H) "0~30" {[ "rms" := [] ]}).
  - vm_compute. do 2 right. left. reflexivity.
  - vm_compute. reflexivity.
Defined.

(** ** The calls of a run *)

(** The [tclean] calls of a run: none, the dirty pass, or the dirty pass
    followed by the final pass. *)
Lemma tclean_calls_inv g base out ds line r evs :
  outcome g base out ds line r evs ->
  (tclean_calls evs = [] /\ r <> Ok tt)
  \/ exists vis,
       vis_file base ds line = Ok vis
       /\ ((tclean_calls evs = [dirty_pass (tclean_common_params g) vis out ds line]
            /\ r <> Ok tt)
           \/ exists stats thr,
                threshold_of (rms_multiplier g) stats = Ok thr
                /\ In (Imstat (clean0_image out line) (rms_channels g),
                       ReturnsStats stats) evs
                /\ tclean_calls evs =
                   [dirty_pass (tclean_common_params g) vis out ds line;
                    final_pass (tclean_common_params g) (max_iterations g) vis out ds
                      line thr]).
Proof.
  intros H. outcome_cases H; try (destruct present; simpl);
    first [ by left | right; eexists; split; [eassumption|]; eauto 12 ].
Qed.

(** The masking routine is called at most once, with the request of
    lines 221-225, and it is called when the dirty pass returned. *)
Lemma mask_calls_inv g base out ds line r evs :
  outcome g base out ds line r evs ->
  (mask_calls evs = [] /\ forall a, ~ In (Tclean a, Returns) evs)
  \/ mask_calls evs = [mask_request (mask_params g) out line].
Proof.
  intros H. outcome_cases H; try (destruct present; simpl); auto;
    left; (split; [done|]); intros a Hin; simpl in Hin; split_in; discriminate.
Qed.

(** The exports of a run: none, the image, or the image and the mask;
    both when the run completes. *)
Lemma export_calls_inv g base out ds line r evs :
  outcome g base out ds line r evs ->
  (r = Ok tt -> export_calls evs = [export_image base out line; export_mask base out line])
  /\ (export_calls evs = []
      \/ export_calls evs = [export_image base out line]
      \/ export_calls evs = [export_image base out line; export_mask base out line]).
Proof.
  intros H. outcome_cases H; try (destruct present; simpl); split; auto; discriminate.
Qed.

(** C6. Every request to the masking routine carries the whole
    rest-frequency list of the line with each element multiplied by [1e9],
    in the same order and of the same length; the request is made as soon
    as the dirty pass has returned. *)
Theorem restfreqs_forwarded env base out ds line st :
  let evs := new_events (clean_line env base out ds line) st in
  (forall a, In a (mask_calls evs) ->
     mm_restfreqs a = map (fun freq => (freq * 1e9)%float) (restfreqs line)
     /\ length (mm_restfreqs a) = length (restfreqs line)
     /\ forall i, mm_restfreqs a !! i
                  = (fun freq => (freq * 1e9)%float) <$> (restfreqs line !! i))
  /\ (forall a0, In (Tclean a0, Returns) evs -> exists a, mask_calls evs = [a]).
Proof.
  intros evs.
  destruct (mask_calls_inv _ _ _ _ _ _ _ (clean_line_sound env base out ds line st))
    as [[Hnone Hdirty]|Hone]; fold evs in Hnone, Hdirty || fold evs in Hone.
  - split; [by rewrite Hnone|]. intros a0 Hin. by destruct (Hdirty a0).
  - rewrite Hone. split; [|eauto]. intros a [<-|[]]. simpl.
    split; [done|]. split; [apply length_map|]. intros i. apply list_lookup_fmap.
Qed.

(** The six hyperfine frequencies of HCN arrive in hertz, in order; the
    products are binary64 products, so some carry a rounding error. *)
Lemma restfreqs_forwarded_witness :
  mm_restfreqs (mask_request MASK_PARAMS output_path line_HCN)
  = [265884891200.00003; 265886188600.00003; 265886433900; 265886434300.00003;
     265886499900; 265888522100]%float.
Proof.
  etransitivity.
  - apply (proj1 (restfreqs_forwarded (steady None) base_path output_path
                    dataset_2013_SG2 line_HCN initial_state)).
    vm_compute. left. reflexivity.
  - vm_compute. reflexivity.
Defined.

(** The final pass comes after the masking routine has returned. *)
Lemma mask_made_before_final_pass g base out ds line r evs a :
  outcome g base out ds line r evs ->
  In a (final_pass_calls evs) ->
  In (MakeMask (mask_request (mask_params g) out line), Returns) evs.
Proof.
  intros H Ha. outcome_cases H; try done; try (destruct present; simpl in * ); auto.
Qed.

(** C7. A run that completes makes exactly two [tclean] calls, in this
    order: the dirty pass with [niter=0], no mask and the fixed threshold
    [5mJy], writing the cube [<output>/AATau_<molecule>_contsub_clean0];
    then the final pass with the mask image generated for that cube (the
    masking routine has returned for [..._clean0.image], and the mask is
    [..._clean0.mask.image]), the threshold obtained from the dictionary
    of statistics (computed from its RMS, or the fallback) and
    [niter=50000].  Both use the same visibility file, the width of the
    dataset, the rest frequency of the line and [TCLEAN_COMMON_PARAMS].  A
    run that is cut short has made an initial part of these two calls. *)
Theorem two_tclean_calls env base out ds line tr :
  let st := {| globals := initial_globals; trace := tr |} in
  let evs := new_events (clean_line env base out ds line) st in
  let pass0 :=
    PyStr.path_join out ["AATau_" +:+ molecule line +:+ "_contsub"] +:+ "_clean0" in
  let pass1 :=
    PyStr.path_join out ["AATau_" +:+ molecule line +:+ "_contsub"] +:+ "_clean1" in
  let first_call vis := {|
    tc_vis := vis;
    tc_imagename := pass0;
    tc_mask := None;
    tc_width := width ds;
    tc_restfreq := PyFloat.py_str (line_freq line) +:+ "GHz";
    tc_threshold := "5mJy";
    tc_niter := 0;
    tc_common := TCLEAN_COMMON_PARAMS |} in
  let second_call vis thr := {|
    tc_vis := vis;
    tc_imagename := pass1;
    tc_mask := Some (pass0 +:+ ".mask.image");
    tc_width := width ds;
    tc_restfreq := PyFloat.py_str (line_freq line) +:+ "GHz";
    tc_threshold := thr;
    tc_niter := 50000;
    tc_common := TCLEAN_COMMON_PARAMS |} in
  let computed_or_fallback (stats : stats_value) (thr : string) :=
    (forall d r rest, stats = Some d -> d !! "rms" = Some (r :: rest) ->
       thr = if (0 <? r)%float
             then PyFloat.py_str (PyFloat.py_round (2000 * r)%float 1%N) +:+ "mJy"
             else "10mJy")
    /\ ((stats = None \/ exists d, stats = Some d /\ d !! "rms" = None) ->
          thr = "10mJy") in
  let both_calls vis :=
    exists stats thr mask_request,
      In (MakeMask mask_request, Returns) evs
      /\ mm_image mask_request = pass0 +:+ ".image"
      /\ In (Imstat (pass0 +:+ ".image") "0~30", ReturnsStats stats) evs
      /\ computed_or_fallback stats thr
      /\ tclean_calls evs = [first_call vis; second_call vis thr] in
  (fst (clean_line env base out ds line st) = Ok tt ->
   exists vis, vis_file base ds line = Ok vis /\ both_calls vis)
  /\ (tclean_calls evs = []
      \/ exists vis,
           vis_file base ds line = Ok vis
           /\ (tclean_calls evs = [first_call vis] \/ both_calls vis)).
Proof.
  intros st evs pass0 pass1 first_call second_call computed_or_fallback both_calls.
  pose proof (clean_line_sound env base out ds line st) as Hrun. fold evs in Hrun.
  assert (Hboth : forall vis stats thr,
            threshold_of RMS_MULTIPLIER stats = Ok thr ->
            In (Imstat (clean0_image out line) "0~30", ReturnsStats stats) evs ->
            tclean_calls evs
            = [dirty_pass TCLEAN_COMMON_PARAMS vis out ds line;
               final_pass TCLEAN_COMMON_PARAMS MAX_ITERATIONS vis out ds line thr] ->
            both_calls vis).
  { intros vis stats thr Hthr Hin Htwo.
    exists stats, thr, (mask_request MASK_PARAMS out line).
    split.
    { apply (mask_made_before_final_pass _ _ _ _ _ _ _
               (final_pass TCLEAN_COMMON_PARAMS MAX_ITERATIONS vis out ds line thr) Hrun).
      unfold final_pass_calls. rewrite Htwo. simpl. by left. }
    split; [done|]. split; [done|].
    apply threshold_of_dictionary in Hthr as (Hrms & Hnone & _).
    by repeat split. }
  destruct (tclean_calls_inv _ _ _ _ _ _ _ Hrun)
    as [[Hnone Hr]|(vis & Hvis & [[Hone Hr]|(stats & thr & Hthr & Hin & Htwo)])].
  - split; [done | by left].
  - split; [done|]. right. exists vis. split; [done|]. by left.
  - split; [intros _|right]; exists vis; (split; [done|]); [|right]; by eapply Hboth.
Qed.

Lemma two_tclean_calls_witness :
  exists vis,
    vis_file base_path dataset_2013_SG2 line_N2H = Ok vis
    /\ omap tc_mask
         (tclean_calls
            (new_events
               (clean_line (steady (Some {[ "rms" := [0.003%float] ]})) base_path
                  output_path dataset_2013_SG2 line_N2H) initial_state))
       = ["/Users/jea/AATau/aatau-alma-analysis/casa_images/AATau_N2H+_contsub_clean0.mask.image"].
Proof.
  destruct (proj1 (two_tclean_calls (steady (Some {[ "rms" := [0.003%float] ]}))
                     base_path output_path dataset_2013_SG2 line_N2H []))
    as (vis & Hvis & stats & thr & m & _ & _ & _ & _ & Hcalls).
  - vm_compute. reflexivity.
  - exists vis. split; [exact Hvis|].
    unfold initial_state. rewrite Hcalls. vm_compute. reflexivity.
Defined.

(** ** Paths and names *)

Lemma str_app_nil_l (t : string) : "" +:+ t = t.
Proof. reflexivity. Qed.

Lemma str_app_cons a (s t : string) : String a s +:+ t = String a (s +:+ t).
Proof. reflexivity. Qed.

Lemma str_app_assoc (s t u : string) : (s +:+ t) +:+ u = s +:+ t +:+ u.
Proof.
  induction s as [|c s IH]; [done|]. rewrite !str_app_cons. by f_equal.
Qed.

Lemma rfind_succ_app c s t :
  PyStr.rfind_succ c (s +:+ t)
  = match PyStr.rfind_succ c t with
    | O => PyStr.rfind_succ c s
    | S k => String.length s + S k
    end.
Proof.
  induction s as [|a s IH].
  - rewrite str_app_nil_l. by destruct (PyStr.rfind_succ c t).
  - rewrite str_app_cons. simpl. rewrite IH.
    destruct (PyStr.rfind_succ c t); [done|]. by rewrite Nat.add_succ_r.
Qed.

Lemma str_drop_app n s t :
  PyStr.str_drop (String.length s + n) (s +:+ t) = PyStr.str_drop n t.
Proof.
  induction s as [|a s IH]; [done|]. rewrite str_app_cons. simpl. apply IH.
Qed.

(** The base name only looks behind the last separator. *)
Lemma basename_after_slash s t :
  PyStr.path_basename (s +:+ "/" +:+ t) = PyStr.path_basename t.
Proof.
  unfold PyStr.path_basename. rewrite rfind_succ_app, str_app_cons, str_app_nil_l.
  assert (Hslash : PyStr.rfind_succ "/" (String "/" t) = S (PyStr.rfind_succ "/" t))
    by (simpl; by destruct (PyStr.rfind_succ "/" t)).
  rewrite Hslash, str_drop_app. reflexivity.
Qed.

Lemma endswith_char_inv c s :
  PyStr.endswith_char c s = true -> exists s', s = s' +:+ String c EmptyString.
Proof.
  induction s as [|a s IH]; simpl; [done|].
  destruct s as [|b s].
  - intros ->%Ascii.eqb_eq. by exists EmptyString.
  - intros (s' & ->)%IH. by exists (String a s').
Qed.

(** Joining a relative name onto a directory does not change its base
    name, whatever the directory. *)
Lemma basename_join dir b sfx :
  PyStr.startswith "/" b = false ->
  PyStr.path_basename (PyStr.path_join dir [b] +:+ sfx) = PyStr.path_basename (b +:+ sfx).
Proof.
  intros Hrel.
  change (PyStr.path_join dir [b]) with (PyStr.join_step dir b).
  unfold PyStr.join_step. rewrite Hrel.
  destruct (String.eqb dir "") eqn:Hempty.
  - apply String.eqb_eq in Hempty. by subst dir.
  - cbn [orb]. destruct (PyStr.endswith_char "/" dir) eqn:Hslash.
    + apply endswith_char_inv in Hslash as (dir' & ->).
      rewrite !str_app_assoc. apply (basename_after_slash dir').
    + rewrite !str_app_assoc. apply (basename_after_slash dir).
Qed.

Lemma str_length_app (s t : string) :
  String.length (s +:+ t) = (String.length s + String.length t)%nat.
Proof.
  induction s as [|c s IH]; [done|]. rewrite str_app_cons. simpl. by rewrite IH.
Qed.

Lemma str_app_inj_l (s a b : string) : s +:+ a = s +:+ b -> a = b.
Proof.
  induction s as [|c s IH]; [done|]. rewrite !str_app_cons. intros [= H]. auto.
Qed.

Lemma str_app_inj_r (a b t : string) : a +:+ t = b +:+ t -> a = b.
Proof.
  revert b. induction a as [|c a IH]; intros [|c' b] H.
  - done.
  - apply (f_equal String.length) in H. rewrite str_app_nil_l, str_length_app in H.
    simpl in H. lia.
  - apply (f_equal String.length) in H. rewrite str_app_nil_l, str_length_app in H.
    simpl in H. lia.
  - rewrite !str_app_cons in H. injection H as -> H. f_equal. auto.
Qed.

(** Joining a relative name puts it behind the directory and a separator. *)
Lemma join_relative dir b :
  PyStr.startswith "/" b = false -> PyStr.path_join dir [b] = join_prefix dir +:+ b.
Proof.
  intros Hrel. change (PyStr.path_join dir [b]) with (PyStr.join_step dir b).
  unfold PyStr.join_step, join_prefix. rewrite Hrel.
  destruct (String.eqb dir "" || PyStr.endswith_char "/" dir); [done|].
  by rewrite str_app_assoc.
Qed.

(** The FITS directory and the directory of the CASA images are both
    under [<base>/aatau-alma-analysis] (lines 253 and 271): bases with the
    same image directory have the same FITS directory. *)
Lemma fits_dir_of_output_path base1 base2 :
  PyStr.path_join base1 ["aatau-alma-analysis"; "casa_images"]
  = PyStr.path_join base2 ["aatau-alma-analysis"; "casa_images"] ->
  fits_dir base1 = fits_dir base2.
Proof.
  unfold fits_dir.
  change (PyStr.path_join ?b [?x; ?y]) with (PyStr.path_join (PyStr.path_join b [x]) [y]).
  rewrite !(join_relative _ "casa_images"), !(join_relative _ "fits_products")
    by reflexivity.
  by intros ->%str_app_inj_r.
Qed.

(** The FITS names do not depend on the directory of the CASA images. *)
Lemma fits_names_ignore_output_path base out out' line line' :
  molecule line = molecule line' ->
  ef_fitsimage (export_image base out line) = ef_fitsimage (export_image base out' line')
  /\ ef_fitsimage (export_mask base out line) = ef_fitsimage (export_mask base out' line').
Proof.
  intros Hm. unfold export_image, export_mask. cbn [ef_fitsimage].
  unfold clean1_imagename, clean0_imagename, output_prefix. rewrite Hm.
  by rewrite !basename_join by reflexivity.
Qed.

(** The only dataset of the catalogue called [2013_SG2], and its only line
    of [N2H+]. *)
Lemma catalogue_N2H ds line :
  In ds DATASETS -> name ds = "2013_SG2" ->
  In line (lines ds) -> molecule line = "N2H+" ->
  ds = dataset_2013_SG2 /\ line = line_N2H.
Proof.
  intros Hds Hname. simpl in Hds. destruct Hds as [<-|[<-|[<-|[]]]]; try discriminate.
  intros Hline Hmol. simpl in Hline.
  destruct Hline as [<-|[<-|[<-|[]]]]; try discriminate. done.
Qed.

(** C1, as the code has it. For dataset [2013_SG2] and line [N2H+] (spw 0,
    rest frequency 279.5117491 GHz) the FITS files that [clean_line]
    exports into [fits_products] are named
    [AATau_N2H+_contsub_clean1.fits] and
    [AATau_N2H+_contsub_clean0.mask.fits]: the [.fits] suffixes are added
    to the image names without their [.image] ending.  A run exports no
    other file, and a run that completes exports both. *)
Theorem fits_names_N2H env ds line st :
  In ds DATASETS -> name ds = "2013_SG2" ->
  In line (lines ds) -> molecule line = "N2H+" ->
  let evs := new_events (clean_line env base_path output_path ds line) st in
  let image_fits := fits_dir base_path +:+ "/" +:+ "AATau_N2H+_contsub_clean1.fits" in
  let mask_fits := fits_dir base_path +:+ "/" +:+ "AATau_N2H+_contsub_clean0.mask.fits" in
  spw line = 0%Z /\ line_freq line = 279.5117491%float
  /\ fits_dir base_path = "/Users/jea/AATau/aatau-alma-analysis/fits_products"
  /\ (forall a, In a (export_calls evs) ->
        ef_fitsimage a = image_fits \/ ef_fitsimage a = mask_fits)
  /\ (fst (clean_line env base_path output_path ds line st) = Ok tt ->
      map ef_fitsimage (export_calls evs) = [image_fits; mask_fits]).
Proof.
  intros Hds Hname Hline Hmol evs image_fits mask_fits.
  destruct (catalogue_N2H ds line Hds Hname Hline Hmol) as [-> ->].
  do 3 (split; [reflexivity|]).
  destruct (export_calls_inv _ _ _ _ _ _ _
              (clean_line_sound env base_path output_path dataset_2013_SG2 line_N2H st))
    as [Hok Hany]. fold evs in Hok, Hany.
  split.
  - intros a Ha. destruct Hany as [H|[H|H]]; rewrite H in Ha; simpl in Ha;
      split_in; subst a; auto.
  - intros Hr. by rewrite (Hok Hr).
Qed.

Lemma fits_names_N2H_witness :
  map ef_fitsimage
    (export_calls
       (new_events (clean_line (steady None) base_path output_path
                      dataset_2013_SG2 line_N2H) initial_state))
  = ["/Users/jea/AATau/aatau-alma-analysis/fits_products/AATau_N2H+_contsub_clean1.fits";
     "/Users/jea/AATau/aatau-alma-analysis/fits_products/AATau_N2H+_contsub_clean0.mask.fits"].
Proof.
  apply (fits_names_N2H (steady None) dataset_2013_SG2 line_N2H initial_state).
  - left. reflexivity.
  - reflexivity.
  - left. reflexivity.
  - reflexivity.
  - vm_compute. reflexivity.
Defined.

(** C1 as worded fails: in a run of the first catalogue line in which
    every call returns, neither [AATau_N2H+_contsub_clean1.image.fits] nor
    [AATau_N2H+_contsub_clean0.mask.image.fits] is the name of an exported
    file. *)
Lemma fits_names_not_image_fits :
  let run := clean_line (steady None) base_path output_path dataset_2013_SG2 line_N2H in
  let names :=
    map (fun a => PyStr.path_basename (ef_fitsimage a))
      (export_calls (new_events run initial_state)) in
  In dataset_2013_SG2 DATASETS /\ In line_N2H (lines dataset_2013_SG2)
  /\ fst (run initial_state) = Ok tt
  /\ names = ["AATau_N2H+_contsub_clean1.fits"; "AATau_N2H+_contsub_clean0.mask.fits"]
  /\ ~ In "AATau_N2H+_contsub_clean1.image.fits" names
  /\ ~ In "AATau_N2H+_contsub_clean0.mask.image.fits" names.
Proof.
  vm_compute. repeat split; auto; intros [H|[H|[]]]; discriminate.
Qed.

(** The requests of a run that completes. *)
Lemma completed_run_calls g base out ds line evs :
  outcome g base out ds line (Ok tt) evs ->
  exists vis thr,
    tclean_calls evs
    = [dirty_pass (tclean_common_params g) vis out ds line;
       final_pass (tclean_common_params g) (max_iterations g) vis out ds line thr]
    /\ mask_calls evs = [mask_request (mask_params g) out line]
    /\ export_calls evs = [export_image base out line; export_mask base out line].
Proof.
  intros H. outcome_cases H. destruct present; simpl; eauto 10.
Qed.

(** C8. The names are a function of the molecule and the output
    directory.  The script derives the output directory from the base path
    (line 271) and calls [clean_line] with the two (line 281); for two such
    runs on lines of the same molecule with the same output directory,
    whatever else differs (engines, states, datasets, spectral windows,
    frequencies, how far each run gets), every request the two runs have
    in common carries the same image, mask and FITS paths, and two runs
    that complete have requested exactly the same paths.  Every export
    asks to overwrite, so the second run writes over the files of the
    first. *)
Theorem naming_is_a_function env1 env2 base1 base2 ds1 ds2 line1 line2 st1 st2 :
  let output_dir base := PyStr.path_join base ["aatau-alma-analysis"; "casa_images"] in
  let run1 := clean_line env1 base1 (output_dir base1) ds1 line1 in
  let run2 := clean_line env2 base2 (output_dir base2) ds2 line2 in
  let evs1 := new_events run1 st1 in
  let evs2 := new_events run2 st2 in
  molecule line1 = molecule line2 ->
  output_dir base1 = output_dir base2 ->
  (forall k a b, tclean_calls evs1 !! k = Some a -> tclean_calls evs2 !! k = Some b ->
     tc_imagename a = tc_imagename b /\ tc_mask a = tc_mask b)
  /\ (forall a b, In a (mask_calls evs1) -> In b (mask_calls evs2) ->
        mm_image a = mm_image b)
  /\ (forall k a b, export_calls evs1 !! k = Some a -> export_calls evs2 !! k = Some b ->
        ef_imagename a = ef_imagename b /\ ef_fitsimage a = ef_fitsimage b)
  /\ Forall (fun a => ef_overwrite a = true) (export_calls evs1 ++ export_calls evs2)
  /\ (fst (run1 st1) = Ok tt -> fst (run2 st2) = Ok tt ->
      map tc_imagename (tclean_calls evs1) = map tc_imagename (tclean_calls evs2)
      /\ omap tc_mask (tclean_calls evs1) = omap tc_mask (tclean_calls evs2)
      /\ map mm_image (mask_calls evs1) = map mm_image (mask_calls evs2)
      /\ map ef_imagename (export_calls evs1) = map ef_imagename (export_calls evs2)
      /\ map ef_fitsimage (export_calls evs1) = map ef_fitsimage (export_calls evs2)
      /\ length (tclean_calls evs1) = 2%nat /\ length (export_calls evs1) = 2%nat).
Proof.
  intros output_dir run1 run2 evs1 evs2 Hm Hout.
  pose proof (clean_line_sound env1 base1 (output_dir base1) ds1 line1 st1) as Hrun1.
  pose proof (clean_line_sound env2 base2 (output_dir base2) ds2 line2 st2) as Hrun2.
  fold run1 evs1 in Hrun1. fold run2 evs2 in Hrun2.
  assert (Hprefix : output_prefix (output_dir base1) line1
                    = output_prefix (output_dir base2) line2)
    by (unfold output_prefix; by rewrite Hm, Hout).
  assert (Hdirty : forall c1 c2 vis1 vis2,
            tc_imagename (dirty_pass c1 vis1 (output_dir base1) ds1 line1)
            = tc_imagename (dirty_pass c2 vis2 (output_dir base2) ds2 line2)
            /\ tc_mask (dirty_pass c1 vis1 (output_dir base1) ds1 line1)
               = tc_mask (dirty_pass c2 vis2 (output_dir base2) ds2 line2)).
  { intros. simpl. unfold clean0_imagename. by rewrite Hprefix. }
  assert (Hfinal : forall c1 c2 n1 n2 vis1 vis2 thr1 thr2,
            tc_imagename (final_pass c1 n1 vis1 (output_dir base1) ds1 line1 thr1)
            = tc_imagename (final_pass c2 n2 vis2 (output_dir base2) ds2 line2 thr2)
            /\ tc_mask (final_pass c1 n1 vis1 (output_dir base1) ds1 line1 thr1)
               = tc_mask (final_pass c2 n2 vis2 (output_dir base2) ds2 line2 thr2)).
  { intros. simpl. unfold mask_image, clean1_imagename, clean0_imagename.
    by rewrite Hprefix. }
  assert (Hmask : forall p1 p2,
            mm_image (mask_request p1 (output_dir base1) line1)
            = mm_image (mask_request p2 (output_dir base2) line2)).
  { intros. simpl. unfold clean0_image, clean0_imagename. by rewrite Hprefix. }
  assert (Himage : ef_imagename (export_image base1 (output_dir base1) line1)
                   = ef_imagename (export_image base2 (output_dir base2) line2)
                   /\ ef_fitsimage (export_image base1 (output_dir base1) line1)
                      = ef_fitsimage (export_image base2 (output_dir base2) line2)).
  { unfold export_image. cbn [ef_imagename ef_fitsimage].
    unfold clean1_image, clean1_imagename.
    by rewrite Hprefix, (fits_dir_of_output_path base1 base2 Hout). }
  assert (Hfmask : ef_imagename (export_mask base1 (output_dir base1) line1)
                   = ef_imagename (export_mask base2 (output_dir base2) line2)
                   /\ ef_fitsimage (export_mask base1 (output_dir base1) line1)
                      = ef_fitsimage (export_mask base2 (output_dir base2) line2)).
  { unfold export_mask. cbn [ef_imagename ef_fitsimage].
    unfold mask_image, clean0_imagename.
    by rewrite Hprefix, (fits_dir_of_output_path base1 base2 Hout). }
  destruct (export_calls_inv _ _ _ _ _ _ _ Hrun1) as [_ He1].
  destruct (export_calls_inv _ _ _ _ _ _ _ Hrun2) as [_ He2].
  pose proof (tclean_calls_inv _ _ _ _ _ _ _ Hrun1) as Ht1.
  pose proof (tclean_calls_inv _ _ _ _ _ _ _ Hrun2) as Ht2.
  pose proof (mask_calls_inv _ _ _ _ _ _ _ Hrun1) as Hm1.
  pose proof (mask_calls_inv _ _ _ _ _ _ _ Hrun2) as Hm2.
  split; [|split; [|split; [|split]]].
  - intros k a b Ha Hb.
    destruct Ht1 as [[H1 _]|(vis1 & _ & [[H1 _]|(s1 & t1 & _ & _ & H1)])];
      rewrite H1 in Ha;
      destruct Ht2 as [[H2 _]|(vis2 & _ & [[H2 _]|(s2 & t2 & _ & _ & H2)])];
      rewrite H2 in Hb;
      destruct k as [|[|k]]; simpl in Ha, Hb; try discriminate;
      injection Ha as <-; injection Hb as <-;
      first [apply Hdirty | apply Hfinal].
  - intros a b Ha Hb.
    destruct Hm1 as [[H1 _]|H1]; rewrite H1 in Ha; [done|].
    destruct Hm2 as [[H2 _]|H2]; rewrite H2 in Hb; [done|].
    destruct Ha as [<-|[]]. destruct Hb as [<-|[]]. apply Hmask.
  - intros k a b Ha Hb.
    destruct He1 as [H1|[H1|H1]]; rewrite H1 in Ha;
      destruct He2 as [H2|[H2|H2]]; rewrite H2 in Hb;
      destruct k as [|[|k]]; simpl in Ha, Hb; try discriminate;
      injection Ha as <-; injection Hb as <-;
      first [exact Himage | exact Hfmask].
  - apply Forall_app. split.
    + destruct He1 as [->|[->| ->]]; repeat constructor.
    + destruct He2 as [->|[->| ->]]; repeat constructor.
  - intros Hr1 Hr2. rewrite Hr1 in Hrun1. rewrite Hr2 in Hrun2.
    destruct (completed_run_calls _ _ _ _ _ _ Hrun1) as (v1 & t1 & -> & -> & ->).
    destruct (completed_run_calls _ _ _ _ _ _ Hrun2) as (v2 & t2 & -> & -> & ->).
    destruct (Hdirty (tclean_common_params (globals st1))
                (tclean_common_params (globals st2)) v1 v2) as [Hd _].
    destruct (Hfinal (tclean_common_params (globals st1))
                (tclean_common_params (globals st2))
                (max_iterations (globals st1)) (max_iterations (globals st2))
                v1 v2 t1 t2) as [Hn Hk].
    pose proof (Hmask (mask_params (globals st1)) (mask_params (globals st2))) as Hmm.
    destruct Himage as [Hi Hf]. destruct Hfmask as [Hi' Hf'].
    repeat split.
    + cbn [map]. by rewrite Hd, Hn.
    + simpl in Hk. injection Hk as Hk. simpl. by rewrite Hk.
    + cbn [map]. by rewrite Hmm.
    + cbn [map]. by rewrite Hi, Hi'.
    + cbn [map]. by rewrite Hf, Hf'.
Qed.
(** Two runs under the script's paths on lines of [N2H+], with different
    engines, datasets, spectral windows and frequencies: the FITS paths
    are the same. *)
Lemma naming_is_a_function_witness :
  map ef_fitsimage
    (export_calls
       (new_events
          (clean_line (steady None)
             base_path (PyStr.path_join base_path ["aatau-alma-analysis"; "casa_images"])
             dataset_2013_SG2 line_N2H) initial_state))
  = map ef_fitsimage
      (export_calls
         (new_events
            (clean_line (steady (Some {[ "rms" := [0.003%float] ]}))
               base_path (PyStr.path_join base_path ["aatau-alma-analysis"; "casa_images"])
               {| name := "2015_SG1"; vis_template := "other.spw{spw}.ms";
                  width := "0.4km/s"; lines := [] |}
               {| spw := 3; molecule := "N2H+"; line_freq := 279.5%float;
                  restfreqs := [] |})
            initial_state)).
Proof.
  destruct (naming_is_a_function
              (steady None) (steady (Some {[ "rms" := [0.003%float] ]}))
              base_path base_path
              dataset_2013_SG2
              {| name := "2015_SG1"; vis_template := "other.spw{spw}.ms";
                 width := "0.4km/s"; lines := [] |}
              line_N2H
              {| spw := 3; molecule := "N2H+"; line_freq := 279.5%float;
                 restfreqs := [] |}
              initial_state initial_state eq_refl eq_refl)
    as (_ & _ & _ & _ & Hcompleted).
  destruct Hcompleted as (_ & _ & _ & _ & Hfits & _).
  - vm_compute. reflexivity.
  - vm_compute. reflexivity.
  - exact Hfits.
Defined.

(** ** The visibility directory *)

(** [name.replace('_', '')] removes the underscores. *)
Lemma replace_underscore_spec s :
  PyStr.str_replace "_" "" s = remove_underscores s.
Proof.
  unfold PyStr.str_replace.
  induction s as [|c s IH]; [done|].
  cbn [PyStr.replace_from remove_underscores String.prefix].
  destruct (ascii_dec "_" c) as [<-|Hne].
  - replace (String.prefix "" s) with true by (by destruct s).
    simpl. by rewrite str_app_nil_l.
  - destruct (Ascii.eqb c "_") eqn:Hc; [|by rewrite IH].
    apply Ascii.eqb_eq in Hc. by subst c.
Qed.

Lemma contsub_dir_spec ds : contsub_dir ds = spec_contsub_dir (name ds).
Proof. unfold contsub_dir, spec_contsub_dir. by rewrite replace_underscore_spec. Qed.

(** C4. For every dataset identifier other than [2015_SG1] the
    visibility directory is [contsub_] followed by the identifier without
    its underscores; for [2015_SG1] it is [contsub_2015].  The visibility
    file given to every [tclean] call lies in that directory under the
    base path. *)
Theorem visibility_directory env base out ds line st :
  (name ds <> "2015_SG1" ->
   contsub_dir ds = "contsub_" +:+ remove_underscores (name ds))
  /\ (name ds = "2015_SG1" -> contsub_dir ds = "contsub_2015")
  /\ (forall a, In a (tclean_calls (new_events (clean_line env base out ds line) st)) ->
        exists file,
          PyStr.str_format_spw (vis_template ds) (spw line) = inr file
          /\ tc_vis a
             = PyStr.path_join (PyStr.path_join base [spec_contsub_dir (name ds)]) [file]).
Proof.
  split; [|split].
  - intros Hne. rewrite contsub_dir_spec. unfold spec_contsub_dir.
    destruct (String.eqb_spec (name ds) "2015_SG1"); done.
  - intros Heq. rewrite contsub_dir_spec. unfold spec_contsub_dir. by rewrite Heq.
  - intros a Ha.
    assert (Hvis : forall vis, vis_file base ds line = Ok vis ->
              exists file,
                PyStr.str_format_spw (vis_template ds) (spw line) = inr file
                /\ vis = PyStr.path_join
                           (PyStr.path_join base [spec_contsub_dir (name ds)]) [file]).
    { intros vis. unfold vis_file. rewrite contsub_dir_spec.
      destruct (PyStr.str_format_spw _ _) as [[f| |]|file]; try done.
      intros [= <-]. by exists file. }
    destruct (tclean_calls_inv _ _ _ _ _ _ _ (clean_line_sound env base out ds line st))
      as [[Hnone _]|(vis & Hv & [[Hone _]|(stats & thr & _ & _ & Htwo)])].
    + by rewrite Hnone in Ha.
    + rewrite Hone in Ha. destruct Ha as [<-|[]]. by apply Hvis.
    + rewrite Htwo in Ha. destruct Ha as [<-|[<-|[]]]; by apply Hvis.
Qed.

Lemma visibility_directory_witness :
  contsub_dir dataset_2013_SG2 = "contsub_2013SG2".
Proof.
  apply (proj1 (visibility_directory (steady None) base_path output_path
                  dataset_2013_SG2 line_N2H initial_state)).
  vm_compute. discriminate.
Defined.

(** ** The module globals *)

Lemma keeps_ret {A} (a : A) : keeps_globals (ret a).
Proof. by intros st. Qed.

Lemma keeps_read {A} (f : Globals -> A) : keeps_globals (read f).
Proof. by intros st. Qed.

Lemma keeps_bind {A B} (m : M A) (k : A -> M B) :
  keeps_globals m -> (forall a, keeps_globals (k a)) -> keeps_globals (bind m k).
Proof.
  intros Hm Hk st. unfold bind. specialize (Hm st).
  destruct (m st) as [[a|e] st']; simpl in *; [|done].
  by rewrite Hk.
Qed.

Lemma keeps_returns_or_raises c r : keeps_globals (returns_or_raises c r).
Proof. intros st. unfold returns_or_raises. by destruct r. Qed.

Lemma keeps_makedirs env path : keeps_globals (makedirs env path).
Proof. intros st. unfold makedirs. apply keeps_returns_or_raises. Qed.

Lemma keeps_path_exists env path : keeps_globals (path_exists env path).
Proof. by intros st. Qed.

Lemma keeps_print text : keeps_globals (print text).
Proof. by intros st. Qed.

Lemma keeps_try body handler :
  keeps_globals body -> keeps_globals handler ->
  keeps_globals (try_except_Exception body handler).
Proof.
  intros Hb Hh st. unfold try_except_Exception. specialize (Hb st).
  destruct (body st) as [[[]|e] st']; simpl in *; [done|].
  destruct (is_Exception e); simpl; [|done]. by rewrite Hh.
Qed.

Lemma keeps_for_each {A} (xs : list A) (body : A -> M unit) :
  (forall x, keeps_globals (body x)) -> keeps_globals (for_each xs body).
Proof.
  intros Hbody. induction xs as [|x xs IH]; simpl.
  - apply keeps_ret.
  - apply keeps_bind; [apply Hbody | by intros _].
Qed.

Lemma keeps_clean_line env base out ds line :
  keeps_globals (clean_line env base out ds line).
Proof. intros st. by rewrite clean_line_state. Qed.

Lemma keeps_process_all env all : keeps_globals (process_all env all).
Proof.
  apply keeps_for_each. intros ds. apply keeps_for_each. intros line.
  apply keeps_try; [apply keeps_clean_line | apply keeps_ret].
Qed.

Lemma keeps_main env : keeps_globals (main env).
Proof.
  unfold main.
  repeat first
    [ apply keeps_print
    | apply keeps_bind; [|intros ?]
    | apply keeps_path_exists
    | apply keeps_read
    | apply keeps_process_all
    | match goal with |- keeps_globals (if ?b then _ else _) => destruct b end
    | apply keeps_makedirs
    | apply keeps_ret ].
Qed.

(** C9. Neither [clean_line] nor the batch driver assigns the
    configuration: whatever the engines answer, after one line, after the
    loop over any list of datasets and lines, and after [main],
    [MASK_PARAMS], [TCLEAN_COMMON_PARAMS], [DATASETS] and the RMS constants
    have the values they started with. *)
Theorem configuration_never_mutated env :
  (forall base out ds line, keeps_globals (clean_line env base out ds line))
  /\ (forall all, keeps_globals (process_all env all))
  /\ keeps_globals (main env)
  /\ (forall all tr,
        let g := globals (snd (process_all env all
                                 {| globals := initial_globals; trace := tr |})) in
        mask_params g = MASK_PARAMS
        /\ tclean_common_params g = TCLEAN_COMMON_PARAMS
        /\ datasets g = DATASETS
        /\ rms_channels g = RMS_CHANNELS
        /\ rms_multiplier g = RMS_MULTIPLIER
        /\ max_iterations g = MAX_ITERATIONS)
  /\ globals (snd (main env initial_state)) = initial_globals.
Proof.
  split; [intros; apply keeps_clean_line|].
  split; [intros; apply keeps_process_all|].
  split; [apply keeps_main|].
  split; [|apply keeps_main].
  intros all tr g. subst g. by rewrite keeps_process_all.
Qed.

(** ** The batch loop *)

Lemma for_each_app {A} (xs ys : list A) (body : A -> M unit) st :
  for_each (xs ++ ys) body st = bind (for_each xs body) (fun _ => for_each ys body) st.
Proof.
  revert st. induction xs as [|x xs IH]; intros st; [done|].
  simpl. unfold bind. destruct (body x st) as [[[]|e] st1]; [|done].
  rewrite IH. reflexivity.
Qed.

Lemma for_each_map {A B} (f : A -> B) (xs : list A) (body : B -> M unit) st :
  for_each (map f xs) body st = for_each xs (fun x => body (f x)) st.
Proof.
  revert st. induction xs as [|x xs IH]; intros st; [done|].
  simpl. unfold bind. destruct (body (f x) st) as [[[]|e] st1]; [apply IH | done].
Qed.

(** The nested loops of lines 278-284 visit the batch in order. *)
Lemma process_all_batch env all st :
  process_all env all st
  = for_each (batch all) (fun item => process_line env item.1 item.2) st.
Proof.
  unfold process_all. revert st. induction all as [|ds all IH]; intros st; [done|].
  cbn [batch flat_map for_each]. rewrite for_each_app. unfold bind.
  rewrite for_each_map. cbn [fst snd].
  destruct (for_each (lines ds) _ st) as [[[]|e] st1]; [apply IH | done].
Qed.

(** [state_before] is the state of the loop itself: from there on the loop
    runs the rest of the batch. *)
Lemma state_before_run env items n st st' :
  state_before env items n st = Some st' ->
  for_each items (fun item => process_line env item.1 item.2) st
  = for_each (drop n items) (fun item => process_line env item.1 item.2) st'.
Proof.
  revert n st. induction items as [|[ds line] items IH]; intros n st; [done|].
  destruct n as [|n]; simpl; [by intros [= ->]|].
  unfold bind. destruct (process_line env ds line st) as [[[]|e] st1]; [|done].
  apply IH.
Qed.

Lemma state_before_step env items n st stN ds line st' :
  state_before env items n st = Some stN ->
  items !! n = Some (ds, line) ->
  process_line env ds line stN = (Ok tt, st') ->
  S n < length items ->
  state_before env items (S n) st = Some st'.
Proof.
  revert n st. induction items as [|[ds0 line0] items IH]; intros n st; [done|].
  destruct n as [|n].
  - simpl. intros [= ->] [= -> ->] -> Hlen. destruct items as [|[ds1 line1] items]; [simpl in Hlen; lia | done].
  - cbn [state_before lookup list_lookup length].
    destruct (process_line env ds0 line0 st) as [[[]|e] st1]; [|done].
    intros Hb Hl Hp Hlen. apply (IH n st1); auto. lia.
Qed.

(** [except Exception] turns the instances of [Exception] into a normal
    end of the iteration and lets the others through. *)
Lemma process_line_run env ds line st :
  process_line env ds line st
  = match clean_line env base_path output_path ds line st with
    | (Raise e, st') => if is_Exception e then (Ok tt, st') else (Raise e, st')
    | r => r
    end.
Proof. reflexivity. Qed.

Lemma process_line_escape env ds line st e st' :
  process_line env ds line st = (Raise e, st') -> is_Exception e = false.
Proof.
  rewrite process_line_run.
  destruct (clean_line _ _ _ _ _ st) as [[[]|e0] st0]; [done|].
  destruct (is_Exception e0) eqn:He; [done|]. by intros [= <- _].
Qed.

Lemma for_each_escape env items st e st' :
  for_each items (fun item => process_line env item.1 item.2) st = (Raise e, st') ->
  is_Exception e = false.
Proof.
  revert st. induction items as [|[ds line] items IH]; intros st; [done|].
  simpl. unfold bind.
  destruct (process_line env ds line st) as [[[]|e0] st0] eqn:Hp; [apply IH|].
  intros [= <- _]. by eapply process_line_escape.
Qed.

Lemma process_all_escape env all st e st' :
  process_all env all st = (Raise e, st') -> is_Exception e = false.
Proof. rewrite process_all_batch. apply for_each_escape. Qed.

(** An instance of [Exception] can leave [main] only from the creation of
    the output directory, before the loop. *)
Lemma main_escape env st e st' :
  main env st = (Raise e, st') ->
  is_Exception e = true ->
  trace st' = trace st ++ [(PathExists output_path, ReturnsBool false);
                            (Makedirs output_path, Raises e)].
Proof.
  unfold main. rewrite bind_path_exists.
  destruct (on_exists env (trace st) output_path); cbn [negb].
  - unfold bind at 1, ret at 1. rewrite bind_read. unfold bind at 1.
    destruct (process_all env _ _) as [[[]|e0] st0] eqn:Hp.
    + discriminate.
    + intros [= <- _] He. apply process_all_escape in Hp. congruence.
  - rewrite bind_makedirs.
    destruct (on_makedirs env _ output_path) as [e0|].
    + intros [= <- <-] _. simpl. by rewrite <- app_assoc.
    + rewrite bind_read. unfold bind at 1.
      destruct (process_all env _ _) as [[[]|e0] st0] eqn:Hp.
      * discriminate.
      * intros [= <- _] He. apply process_all_escape in Hp. congruence.
Qed.

(** C3, as the code has it. When the processing of position [N] of the
    batch raises an instance of [Exception], the loop goes on: position
    [N+1] is started in the state the failure left, and the driver runs
    the rest of the batch from there.  No instance of [Exception] that
    comes from a line leaves the loop or [main].  (Exceptions that are not
    instances of [Exception], such as [KeyboardInterrupt], are not caught
    by [except Exception].) *)
Theorem failure_does_not_stop_batch env all N ds line st stN e st' :
  batch all !! N = Some (ds, line) ->
  state_before env (batch all) N st = Some stN ->
  clean_line env base_path output_path ds line stN = (Raise e, st') ->
  is_Exception e = true ->
  (S N < length (batch all) -> state_before env (batch all) (S N) st = Some st')
  /\ process_all env all st
     = for_each (drop (S N) (batch all)) (fun item => process_line env item.1 item.2) st'
  /\ (forall e' st'', process_all env all st = (Raise e', st'') -> is_Exception e' = false)
  /\ (forall st0 e' st'',
        main env st0 = (Raise e', st'') -> is_Exception e' = true ->
        trace st'' = trace st0 ++ [(PathExists output_path, ReturnsBool false);
                                    (Makedirs output_path, Raises e')]).
Proof.
  intros Hitem Hbefore Hraise He.
  assert (Hline : process_line env ds line stN = (Ok tt, st'))
    by (by rewrite process_line_run, Hraise, He).
  split; [|split; [|split]].
  - intros Hlen. by eapply state_before_step.
  - rewrite process_all_batch, (state_before_run _ _ _ _ _ Hbefore).
    rewrite (drop_S _ _ _ Hitem). simpl. unfold bind. by rewrite Hline.
  - intros e' st''. apply process_all_escape.
  - intros st0 e' st''. apply main_escape.
Qed.

(** The dirty pass of the first catalogue line fails with an ordinary
    exception; the second line is started. *)
Lemma failure_does_not_stop_batch_witness :
  let env := failing_on (clean0_imagename output_path line_N2H) (OtherException "RuntimeError") in
  state_before env (batch DATASETS) 1 initial_state
  = Some (snd (clean_line env base_path output_path dataset_2013_SG2 line_N2H
                 initial_state)).
Proof.
  intros env.
  apply (failure_does_not_stop_batch env DATASETS 0 dataset_2013_SG2 line_N2H
           initial_state initial_state (OtherException "RuntimeError")).
  - reflexivity.
  - reflexivity.
  - vm_compute. reflexivity.
  - reflexivity.
  - vm_compute. lia.
Defined.

(** C3 as worded fails: when the dirty pass of the first catalogue line is
    interrupted ([KeyboardInterrupt] is an exception, but not an instance
    of [Exception]), the second line is never started and [main] ends with
    that exception, after a single [tclean] call. *)
Lemma interrupt_stops_batch :
  let env := failing_on (clean0_imagename output_path line_N2H) KeyboardInterrupt in
  let started := log (PathExists output_path) (ReturnsBool true) initial_state in
  batch DATASETS !! 0%nat = Some (dataset_2013_SG2, line_N2H)
  /\ state_before env (batch DATASETS) 0 started = Some started
  /\ fst (clean_line env base_path output_path dataset_2013_SG2 line_N2H started)
     = Raise KeyboardInterrupt
  /\ state_before env (batch DATASETS) 1 started = None
  /\ fst (main env initial_state) = Raise KeyboardInterrupt
  /\ map tc_imagename (tclean_calls (trace (snd (main env initial_state))))
     = [clean0_imagename output_path line_N2H].
Proof.
  vm_compute. repeat split.
Qed.

(** ** Whole runs of the script *)

(** With engines that always return, [main] images the nine lines of the
    catalogue: eighteen [tclean] calls and eighteen exports. *)
Example main_steady_run :
  let final := main (steady None) initial_state in
  fst final = Ok tt
  /\ length (tclean_calls (trace (snd final))) = 18
  /\ length (export_calls (trace (snd final))) = 18
  /\ map tc_threshold (final_pass_calls (trace (snd final))) = replicate 9 "10mJy".
Proof. vm_compute. repeat split. Qed.

(** When the dirty pass of the first line fails with an ordinary
    exception, [main] still ends normally and the other eight lines are
    imaged. *)
Example main_survives_failed_line :
  let env :=
    failing_on (clean0_imagename output_path line_N2H) (OtherException "RuntimeError") in
  let final := main env initial_state in
  fst final = Ok tt
  /\ length (tclean_calls (trace (snd final))) = 17
  /\ length (export_calls (trace (snd final))) = 16
  /\ map tc_threshold (final_pass_calls (trace (snd final))) = replicate 8 "6.0mJy".
Proof. vm_compute. repeat split. Qed.

(* ====================================================================== *)
(** * Further properties of the procedure and of the driver *)
(* ====================================================================== *)

(** ** Failures inside one line *)

Ltac run_cases env base out ds line st :=
  let H := fresh "Hrun" in
  pose proof (clean_line_sound env base out ds line st) as H;
  revert H;
  generalize (fst (clean_line env base out ds line st))
             (new_events (clean_line env base out ds line) st);
  intros ? ? H;
  inversion H; subst; clear H;
  unfold imaged, dir_checked, final_pass_calls, tclean_calls, mask_calls, export_calls,
    printed, dirty_names, imstat_calls,
    dirty, masking, statistics, final, probe, mkdir, to_fits_image, to_fits_mask in *;
  try match goal with present : bool |- _ => destruct present end;
  simpl in *.

Ltac in_cases :=
  repeat match goal with
  | Hin : _ \/ _ |- _ => destruct Hin as [Hin|Hin]
  | Hin : False |- _ => destruct Hin
  | Heq : (_, _) = (_, _) |- _ => injection Heq as; subst
  end.

(** X1. A call that raises is the last thing a run of [clean_line] does:
    the exception ends the run as it is, with no retry, no further call
    and no cleanup of what the earlier steps wrote. *)
Theorem abort_at_first_failure env base out ds line st c e :
  let evs := new_events (clean_line env base out ds line) st in
  In (c, Raises e) evs ->
  last evs = Some (c, Raises e)
  /\ fst (clean_line env base out ds line st) = Raise e
  /\ length (List.filter (fun ev => match snd ev with Raises _ => true | _ => false end) evs)
     = 1%nat.
Proof.
  intros evs. subst evs. run_cases env base out ds line st; intros Hin;
    in_cases; try discriminate; auto.
Qed.

Lemma abort_at_first_failure_witness :
  fst (clean_line (broken_tclean (OtherException "RuntimeError")) base_path output_path
         dataset_2013_SG2 line_N2H initial_state)
  = Raise (OtherException "RuntimeError").
Proof.
  eapply (abort_at_first_failure (broken_tclean (OtherException "RuntimeError"))
            base_path output_path dataset_2013_SG2 line_N2H initial_state).
  vm_compute. left. reflexivity.
Defined.

(** X2. Where an exception of [clean_line] comes from: from building the
    visibility path, before any call is made; or from the guard of line
    231, as an [IndexError] right after statistics with an empty ['rms'];
    or from the call made last, unchanged. *)
Theorem exception_provenance env base out ds line st e :
  let evs := new_events (clean_line env base out ds line) st in
  fst (clean_line env base out ds line st) = Raise e ->
  (evs = [] /\ vis_file base ds line = Raise e)
  \/ (e = IndexError
      /\ exists d, d !! "rms" = Some []
           /\ last evs = Some (Imstat (clean0_image out line) (rms_channels (globals st)),
                               ReturnsStats (Some d)))
  \/ (exists c, last evs = Some (c, Raises e)).
Proof.
  intros evs. subst evs. run_cases env base out ds line st; intros [= <-]; eauto.
  right. left.
  match goal with H : threshold_of _ _ = Raise _ |- _ =>
    apply threshold_raises_iff, guard_raises_iff in H as (-> & d & -> & Hd) end.
  eauto.
Qed.

Lemma exception_provenance_witness :
  let run := clean_line (steady (Some {[ "rms" := [] ]})) base_path output_path
               dataset_2013_SG2 line_N2H in
  (new_events run initial_state = []
   /\ vis_file base_path dataset_2013_SG2 line_N2H = Raise IndexError)
  \/ (IndexError = IndexError
      /\ exists d, d !! "rms" = Some []
           /\ last (new_events run initial_state)
              = Some (Imstat (clean0_image output_path line_N2H)
                        (rms_channels (globals initial_state)),
                      ReturnsStats (Some d)))
  \/ (exists c, last (new_events run initial_state) = Some (c, Raises IndexError)).
Proof.
  apply (exception_provenance (steady (Some {[ "rms" := [] ]})) base_path output_path
           dataset_2013_SG2 line_N2H initial_state IndexError).
  vm_compute. reflexivity.
Defined.

(** X3. The steps of a run that completes, in order: dirty pass, mask,
    statistics, final pass, check of the FITS directory, its creation
    exactly when it was absent, export of the image, export of the mask.
    Every one of them returned. *)
Theorem steps_of_completed_run env base out ds line st :
  let evs := new_events (clean_line env base out ds line) st in
  let g := globals st in
  fst (clean_line env base out ds line st) = Ok tt ->
  exists vis stats thr present,
    vis_file base ds line = Ok vis
    /\ threshold_of (rms_multiplier g) stats = Ok thr
    /\ evs =
       [(Tclean (dirty_pass (tclean_common_params g) vis out ds line), Returns);
        (MakeMask (mask_request (mask_params g) out line), Returns);
        (Imstat (clean0_image out line) (rms_channels g), ReturnsStats stats);
        (Tclean (final_pass (tclean_common_params g) (max_iterations g) vis out ds
                   line thr), Returns);
        (PathExists (fits_dir base), ReturnsBool present)]
       ++ (if present then [] else [(Makedirs (fits_dir base), Returns)])
       ++ [(Exportfits (export_image base out line), Returns);
           (Exportfits (export_mask base out line), Returns)].
Proof.
  intros evs g. subst evs g. run_cases env base out ds line st; try discriminate;
    intros _.
  - exists vis, stats, thr, true. auto.
  - exists vis, stats, thr, false. auto.
Qed.

Lemma steps_of_completed_run_witness :
  (7 <= length (new_events (clean_line (steady None) base_path output_path
                              dataset_2013_SG2 line_N2H) initial_state))%nat.
Proof.
  destruct (steps_of_completed_run (steady None) base_path output_path
              dataset_2013_SG2 line_N2H initial_state)
    as (vis & stats & thr & present & _ & _ & ->).
  - vm_compute. reflexivity.
  - destruct present; simpl; lia.
Defined.

(** ** How the steps of one line fit together *)

(** X4. Each step works on what the step before it produced: the mask is
    built from, and the statistics are taken of, the [.image] cube of the
    dirty pass; the final pass is given the [.mask.image] of that cube and
    the same visibility file, width, rest frequency and common parameters
    as the dirty pass; the exports read the [.image] cube of the final
    pass and the mask it was given. *)
Theorem products_are_handed_on env base out ds line st d :
  let evs := new_events (clean_line env base out ds line) st in
  In d (tclean_calls evs) -> tc_mask d = None ->
  (forall a, In a (mask_calls evs) -> mm_image a = tc_imagename d +:+ ".image")
  /\ (forall ic, In ic (imstat_calls evs) -> ic.1 = tc_imagename d +:+ ".image")
  /\ (forall f, In f (final_pass_calls evs) ->
        tc_mask f = Some (tc_imagename d +:+ ".mask.image")
        /\ tc_vis f = tc_vis d /\ tc_width f = tc_width d
        /\ tc_restfreq f = tc_restfreq d /\ tc_common f = tc_common d
        /\ forall x, In x (export_calls evs) ->
             ef_imagename x = tc_imagename f +:+ ".image"
             \/ Some (ef_imagename x) = tc_mask f).
Proof.
  intros evs. subst evs. run_cases env base out ds line st; intros Hd Hm;
    in_cases; subst; try discriminate;
    (split; [|split]); intros; in_cases; subst; try done;
    repeat split; try done; intros; in_cases; subst; auto.
Qed.

Lemma products_are_handed_on_witness :
  mm_image (mask_request MASK_PARAMS output_path line_N2H)
  = tc_imagename (dirty_pass TCLEAN_COMMON_PARAMS
                    "/Users/jea/AATau/contsub_2013SG2/AA_Tau_2013_SG2.spw0.selfcal.ms.contsub_fit1"
                    output_path dataset_2013_SG2 line_N2H) +:+ ".image".
Proof.
  apply (proj1 (products_are_handed_on (steady None) base_path output_path
                  dataset_2013_SG2 line_N2H initial_state _
                  ltac:(vm_compute; left; reflexivity) eq_refl)).
  vm_compute. left. reflexivity.
Defined.

(** X5. Nothing is exported before it exists: an export is only made after
    the final pass has returned, and the mask is only exported after the
    export of the image has returned. *)
Theorem no_export_before_final_pass env base out ds line st a r :
  let evs := new_events (clean_line env base out ds line) st in
  In (Exportfits a, r) evs ->
  (exists f, In (Tclean f, Returns) evs /\ tc_mask f = Some (mask_image out line))
  /\ (a = export_image base out line
      \/ (a = export_mask base out line
          /\ In (Exportfits (export_image base out line), Returns) evs)).
Proof.
  intros evs. subst evs. run_cases env base out ds line st; intros Hin;
    in_cases; try discriminate; (split; [eexists; split; [eauto 10|done]|]); eauto 12.
Qed.

Lemma no_export_before_final_pass_witness :
  exists f,
    In (Tclean f, Returns)
       (new_events (clean_line (steady None) base_path output_path
                      dataset_2013_SG2 line_N2H) initial_state)
    /\ tc_mask f = Some (mask_image output_path line_N2H).
Proof.
  eapply (no_export_before_final_pass (steady None) base_path output_path
            dataset_2013_SG2 line_N2H initial_state
            (export_mask base_path output_path line_N2H) Returns).
  vm_compute. do 7 right. left. reflexivity.
Defined.



(** X7. No call is repeated: one run of [clean_line] makes at most eight
    calls, of which at most two [tclean], one mask, one [imstat] and two
    exports, and it prints nothing. *)
Theorem calls_are_bounded env base out ds line st :
  let evs := new_events (clean_line env base out ds line) st in
  (length evs <= 8
   /\ length (tclean_calls evs) <= 2
   /\ length (mask_calls evs) <= 1
   /\ length (imstat_calls evs) <= 1
   /\ length (export_calls evs) <= 2)%nat
  /\ printed evs = [].
Proof.
  intros evs. subst evs. run_cases env base out ds line st; repeat split; lia.
Qed.

(** ** The loop over the batch and [main] *)

Lemma extended_nil st : extended st [] = st.
Proof. destruct st. unfold extended. simpl. by rewrite app_nil_r. Qed.

Lemma extended_app st evs1 evs2 :
  extended (extended st evs1) evs2 = extended st (evs1 ++ evs2).
Proof. unfold extended. simpl. by rewrite app_assoc. Qed.

Lemma extended_inj st evs1 evs2 : extended st evs1 = extended st evs2 -> evs1 = evs2.
Proof. unfold extended. intros [= H]. by apply app_inv_head in H. Qed.

Lemma new_events_extended {A} (m : M A) st r evs :
  m st = (r, extended st evs) -> new_events m st = evs.
Proof. intros H. unfold new_events. rewrite H. simpl. apply drop_app_length. Qed.

Lemma outcome_line_events g ds line r evs :
  outcome g base_path output_path ds line r evs -> line_events ds line evs.
Proof.
  intros H.
  inversion H; subst; clear H;
    unfold imaged, dir_checked, printed, dirty_names,
      dirty, masking, statistics, final, probe, mkdir, to_fits_image, to_fits_mask in *;
    try match goal with present : bool |- _ => destruct present end;
    match goal with
    | Hvis : vis_file _ _ _ = _ |- _ =>
        split;
        [ reflexivity
        | simpl; lia
        | rewrite Hvis; reflexivity
        | intros path r Hin; simpl in Hin; in_cases; try discriminate; done ]
    end.
Qed.

(** One position of the batch: the events are those of [clean_line], and
    only an exception that is no instance of [Exception] gets out. *)
Lemma process_item_run env item st :
  exists r evs,
    process_item env item st = (r, extended st evs)
    /\ line_events item.1 item.2 evs
    /\ (forall e, r = Raise e -> is_Exception e = false).
Proof.
  destruct item as [ds line]. unfold process_item. simpl.
  destruct (clean_line_outcome env base_path output_path ds line st)
    as (r & evs & Hrun & Hout).
  rewrite process_line_run, Hrun.
  apply outcome_line_events in Hout.
  destruct r as [[]|e]; [by exists (Ok tt), evs|].
  destruct (is_Exception e) eqn:He.
  - by exists (Ok tt), evs.
  - exists (Raise e), evs. split; [done|]. split; [done|]. by intros e' [= <-].
Qed.

Lemma batch_loop env items st :
  exists r evs,
    for_each items (process_item env) st = (r, extended st evs)
    /\ loop_events items r evs.
Proof.
  revert st. induction items as [|item items IH]; intros st.
  - exists (Ok tt), []. split; [by rewrite extended_nil|]. by split.
  - cbn [for_each]. unfold bind.
    destruct (process_item_run env item st) as (r1 & evs1 & -> & [Hp Hl Hd Hm] & Hesc).
    destruct r1 as [[]|e].
    + destruct (IH (extended st evs1)) as (r & evs2 & -> & [Hp2 Hl2 Hd2 He2 Hm2]).
      exists r, (evs1 ++ evs2). split; [by rewrite extended_app|].
      split.
      * unfold printed in *. by rewrite omap_app, Hp, Hp2.
      * rewrite length_app. simpl. lia.
      * intros Hr. unfold dirty_names in *. rewrite omap_app, Hd, (Hd2 Hr). done.
      * done.
      * intros path r' [Hin|Hin]%in_app_iff; eauto.
    + exists (Raise e), evs1. split; [done|]. split; try done.
      simpl. lia.
Qed.

Lemma loop_events_of_run env items st r evs :
  for_each items (process_item env) st = (r, extended st evs) ->
  loop_events items r evs.
Proof.
  intros Hrun. destruct (batch_loop env items st) as (r' & evs' & Hrun' & Hloop).
  rewrite Hrun in Hrun'. assert (r = r') as <- by congruence.
  assert (extended st evs = extended st evs') as ->%extended_inj by congruence. done.
Qed.

(** Every run of [main] ends in one of the three listed ways. *)
Lemma main_run env st :
  exists r evs, main env st = (r, extended st evs) /\ main_outcome env st r evs.
Proof.
  assert (Hloop : forall present,
    exists r evs,
      bind (read datasets)
        (fun all => bind (process_all env all) (fun _ =>
           bind (print (newline +:+ str_repeat "=" 80)) (fun _ =>
           bind (print "ALL CLEANING COMPLETE") (fun _ =>
           bind (print (str_repeat "=" 80)) (fun _ =>
           bind (print (newline +:+ "Output files located in:")) (fun _ =>
           bind (print ("  CASA images: " +:+ output_path)) (fun _ =>
           bind (print ("  FITS files: "
                        +:+ PyStr.path_join base_path
                              ["aatau-alma-analysis"; "fits_products"])) (fun _ =>
           print ""))))))))
        (extended st (output_dir_checked present))
      = (r, extended st evs)
      /\ main_outcome env st r evs).
  { intros present. rewrite bind_read. unfold bind at 1.
    rewrite process_all_batch.
    change (fun item : DatasetSpec * LineSpec => process_line env item.1 item.2)
      with (process_item env).
    cbn [globals extended].
    destruct (batch_loop env (batch (datasets (globals st)))
                (extended st (output_dir_checked present)))
      as (r & loop & Hrun & _).
    cbn [globals extended] in Hrun. rewrite Hrun.
    destruct r as [[]|e].
    - exists (Ok tt), (output_dir_checked present ++ loop ++ banner_events).
      split; [|by apply all_lines_visited].
      unfold bind, print, log, extended, banner_events, banner.
      cbn [globals trace map fst snd]. rewrite <- !app_assoc. reflexivity.
    - exists (Raise e), (output_dir_checked present ++ loop).
      split; [by rewrite extended_app|]. by apply loop_escaped. }
  unfold main. rewrite bind_path_exists.
  destruct (on_exists env (trace st) output_path) eqn:Hpresent; cbn [negb].
  - unfold bind at 1, ret at 1. apply (Hloop true).
  - rewrite bind_makedirs.
    destruct (on_makedirs env _ output_path) as [e|].
    + eexists _, _. split; [|apply cannot_create_output_dir].
      unfold extended, log. simpl. by rewrite <- app_assoc.
    + specialize (Hloop false). unfold output_dir_checked, extended in Hloop.
      unfold log. cbn [globals trace]. rewrite <- app_assoc. apply Hloop.
Qed.

Lemma main_sound env st :
  main_outcome env st (fst (main env st)) (new_events (main env) st).
Proof.
  destruct (main_run env st) as (r & evs & Hrun & Hout).
  by rewrite (new_events_extended _ _ _ _ Hrun), Hrun.
Qed.

Lemma printed_app evs1 evs2 : printed (evs1 ++ evs2) = printed evs1 ++ printed evs2.
Proof. unfold printed. apply omap_app. Qed.

Lemma dirty_names_app evs1 evs2 :
  dirty_names (evs1 ++ evs2) = dirty_names evs1 ++ dirty_names evs2.
Proof. unfold dirty_names. apply omap_app. Qed.

Lemma output_dir_checked_quiet present :
  printed (output_dir_checked present) = []
  /\ dirty_names (output_dir_checked present) = []
  /\ forall e, ~ In (Makedirs output_path, Raises e) (output_dir_checked present).
Proof.
  destruct present; repeat split; intros e Hin; simpl in Hin; in_cases; discriminate.
Qed.

Lemma banner_events_quiet :
  printed banner_events = banner
  /\ dirty_names banner_events = []
  /\ forall c e, ~ In (c, Raises e) banner_events.
Proof.
  repeat split. intros c e Hin. unfold banner_events, banner in Hin. simpl in Hin.
  in_cases; discriminate.
Qed.

(** X8. The creation of the output directory is outside the [try] of the
    loop: when it fails, with whatever exception, [main] ends with that
    exception right there and no line is attempted. *)
Theorem output_dir_failure_ends_main env st e :
  let evs := new_events (main env) st in
  In (Makedirs output_path, Raises e) evs ->
  fst (main env st) = Raise e
  /\ evs = [(PathExists output_path, ReturnsBool false); (Makedirs output_path, Raises e)]
  /\ tclean_calls evs = [].
Proof.
  intros evs. subst evs. pose proof (main_sound env st) as H. revert H.
  generalize (fst (main env st)) (new_events (main env) st). intros r evs H.
  inversion H as [e'|present loop e' Hrun|present loop Hrun]; subst; clear H; intros Hin.
  - simpl in Hin. in_cases; try discriminate. done.
  - apply loop_events_of_run in Hrun.
    apply in_app_iff in Hin as [Hin|Hin].
    + by apply output_dir_checked_quiet in Hin.
    + apply (loop_makedirs _ _ _ Hrun) in Hin. vm_compute in Hin. discriminate.
  - apply loop_events_of_run in Hrun.
    apply in_app_iff in Hin as [Hin|[Hin|Hin]%in_app_iff].
    + by apply output_dir_checked_quiet in Hin.
    + apply (loop_makedirs _ _ _ Hrun) in Hin. vm_compute in Hin. discriminate.
    + by apply banner_events_quiet in Hin.
Qed.

Lemma output_dir_failure_ends_main_witness :
  fst (main (read_only_disk (OtherException "PermissionError")) initial_state)
  = Raise (OtherException "PermissionError").
Proof.
  eapply (output_dir_failure_ends_main
            (read_only_disk (OtherException "PermissionError")) initial_state).
  vm_compute. right. left. reflexivity.
Defined.

(** X9. What [main] prints does not tell how the lines went: whenever
    [main] returns, it has printed exactly the seven lines of the closing
    banner, in order, whatever the engines did and however many lines
    failed; when [main] is ended by an exception it has printed nothing. *)
Theorem banner_whatever_failed env st :
  let evs := new_events (main env) st in
  (fst (main env st) = Ok tt -> printed evs = banner)
  /\ (forall e, fst (main env st) = Raise e -> printed evs = []).
Proof.
  intros evs. subst evs. pose proof (main_sound env st) as H. revert H.
  generalize (fst (main env st)) (new_events (main env) st). intros r evs H.
  inversion H as [e'|present loop e' Hrun|present loop Hrun]; subst; clear H;
    try apply loop_events_of_run in Hrun;
    (split; [intros Hr|intros e Hr]); try discriminate; try done;
    rewrite ?printed_app, (proj1 (output_dir_checked_quiet present)),
      (loop_prints_nothing _ _ _ Hrun); done.
Qed.

(** Every [tclean] call fails: [main] returns all the same, with the
    banner. *)
Lemma banner_whatever_failed_witness :
  printed (new_events (main (broken_tclean (OtherException "RuntimeError")))
             initial_state)
  = banner.
Proof.
  apply (proj1 (banner_whatever_failed
                  (broken_tclean (OtherException "RuntimeError")) initial_state)).
  vm_compute. reflexivity.
Defined.

(** X10. When [main] returns, the dirty pass of every position of the
    batch whose visibility path can be built has been started exactly
    once, in the order of the catalogue (datasets in order, and the lines
    of each dataset in order), whatever failed on the way.  With the
    script's catalogue these are the nine lines. *)
Theorem every_line_attempted_once env st :
  let evs := new_events (main env) st in
  fst (main env st) = Ok tt ->
  dirty_names evs = attempted_names (batch (datasets (globals st)))
  /\ (globals st = initial_globals ->
      dirty_names evs
      = map (fun m => output_path +:+ "/AATau_" +:+ m +:+ "_contsub_clean0")
          ["N2H+"; "DCO+"; "H2CO"; "HCN"; "HCO+"; "CN_SPW1"; "CN_SPW3"; "C18O"; "13CO"]).
Proof.
  intros evs. subst evs. pose proof (main_sound env st) as H. revert H.
  generalize (fst (main env st)) (new_events (main env) st). intros r evs H.
  inversion H as [e'|present loop e' Hrun|present loop Hrun]; subst; clear H;
    intros Hr; try discriminate.
  apply loop_events_of_run in Hrun.
  assert (Hnames : dirty_names (output_dir_checked present ++ loop ++ banner_events)
                   = attempted_names (batch (datasets (globals st)))).
  { rewrite !dirty_names_app, (proj1 (proj2 (output_dir_checked_quiet present))),
      (proj1 (proj2 banner_events_quiet)), app_nil_r.
    by apply (loop_dirty_names _ _ _ Hrun). }
  split; [done|]. intros Hg. rewrite Hnames, Hg. vm_compute. reflexivity.
Qed.

Lemma every_line_attempted_once_witness :
  length (dirty_names
            (new_events (main (broken_tclean (OtherException "RuntimeError")))
               initial_state)) = 9%nat.
Proof.
  destruct (every_line_attempted_once
              (broken_tclean (OtherException "RuntimeError")) initial_state) as [_ H].
  - vm_compute. reflexivity.
  - rewrite H; reflexivity.
Defined.

Lemma state_before_after_raise env items n st stN ds line e st' :
  state_before env items n st = Some stN ->
  items !! n = Some (ds, line) ->
  process_line env ds line stN = (Raise e, st') ->
  forall m, (n < m)%nat -> state_before env items m st = None.
Proof.
  revert n st. induction items as [|[ds0 line0] items IH]; intros n st; [done|].
  destruct n as [|n].
  - simpl. intros [= ->] [= -> ->] Hp m Hm. destruct m as [|m]; [lia|].
    cbn [state_before]. by rewrite Hp.
  - cbn [state_before lookup list_lookup].
    destruct (process_line env ds0 line0 st) as [[[]|e0] st1] eqn:Hp0; [|done].
    intros Hb Hl Hp m Hm. destruct m as [|m]; [lia|].
    apply (IH n st1); auto. lia.
Qed.

(** X11. An exception that is no instance of [Exception]
    ([KeyboardInterrupt], [SystemExit]) ends the batch on the spot: the
    loop ends with that exception in the state the line left, and no later
    position is started. *)
Theorem non_Exception_ends_batch env all N ds line st stN e st' :
  batch all !! N = Some (ds, line) ->
  state_before env (batch all) N st = Some stN ->
  clean_line env base_path output_path ds line stN = (Raise e, st') ->
  is_Exception e = false ->
  process_all env all st = (Raise e, st')
  /\ forall later, (N < later)%nat -> state_before env (batch all) later st = None.
Proof.
  intros Hitem Hbefore Hraise He.
  assert (Hline : process_line env ds line stN = (Raise e, st'))
    by (by rewrite process_line_run, Hraise, He).
  split.
  - rewrite process_all_batch, (state_before_run _ _ _ _ _ Hbefore).
    rewrite (drop_S _ _ _ Hitem). simpl. unfold bind. by rewrite Hline.
  - by eapply state_before_after_raise.
Qed.

Lemma non_Exception_ends_batch_witness :
  let env := failing_on (clean0_imagename output_path line_N2H) SystemExit in
  process_all env DATASETS initial_state
  = (Raise SystemExit,
     snd (clean_line env base_path output_path dataset_2013_SG2 line_N2H initial_state)).
Proof.
  intros env.
  apply (non_Exception_ends_batch env DATASETS 0 dataset_2013_SG2 line_N2H
           initial_state initial_state SystemExit).
  - reflexivity.
  - reflexivity.
  - vm_compute. reflexivity.
  - reflexivity.
Defined.

(** ** Names and molecules *)

Lemma has_char_app c s t :
  PyStr.has_char c (s +:+ t) = PyStr.has_char c s || PyStr.has_char c t.
Proof.
  induction s as [|a s IH]; [done|]. rewrite str_app_cons. simpl.
  by rewrite IH, orb_assoc.
Qed.

Lemma rfind_succ_absent c s : PyStr.has_char c s = false -> PyStr.rfind_succ c s = 0%nat.
Proof.
  induction s as [|a s IH]; [done|]. simpl.
  intros [Ha Hs]%orb_false_iff. by rewrite (IH Hs), Ha.
Qed.

Lemma basename_without_slash s : PyStr.has_char "/" s = false -> PyStr.path_basename s = s.
Proof. intros H. unfold PyStr.path_basename. by rewrite rfind_succ_absent. Qed.

(** The name of the FITS image of a molecule without a slash. *)
Lemma fits_name_without_slash out line sfx :
  PyStr.has_char "/" (molecule line) = false ->
  PyStr.has_char "/" sfx = false ->
  PyStr.path_basename (output_prefix out line +:+ sfx)
  = "AATau_" +:+ molecule line +:+ "_contsub" +:+ sfx.
Proof.
  intros Hm Hs. unfold output_prefix. rewrite basename_join by reflexivity.
  rewrite !str_app_assoc. apply basename_without_slash.
  rewrite !has_char_app, Hm, Hs. reflexivity.
Qed.

(** Equal image names come from equal molecules. *)
Lemma image_names_inj out line1 line2 sfx :
  output_prefix out line1 +:+ sfx = output_prefix out line2 +:+ sfx ->
  molecule line1 = molecule line2.
Proof.
  unfold output_prefix. rewrite !join_relative by reflexivity.
  rewrite !str_app_assoc. intros H%str_app_inj_l%str_app_inj_l.
  by apply str_app_inj_r in H.
Qed.

(** Equal FITS names come from equal molecules, when these hold no slash. *)
Lemma fits_names_inj base out1 out2 line1 line2 sfx ext :
  PyStr.has_char "/" (molecule line1) = false ->
  PyStr.has_char "/" (molecule line2) = false ->
  PyStr.has_char "/" sfx = false ->
  PyStr.path_join (fits_dir base)
    [PyStr.path_basename (output_prefix out1 line1 +:+ sfx) +:+ ext]
  = PyStr.path_join (fits_dir base)
      [PyStr.path_basename (output_prefix out2 line2 +:+ sfx) +:+ ext] ->
  molecule line1 = molecule line2.
Proof.
  intros H1 H2 Hs. rewrite !fits_name_without_slash by done.
  rewrite !join_relative by reflexivity.
  intros H%str_app_inj_l. rewrite !str_app_assoc in H.
  by apply str_app_inj_l, str_app_inj_r in H.
Qed.

(** X12. Lines of different molecules never share a product: their pass-0
    and pass-1 cubes have different names under any output directory, and,
    when the molecule names hold no slash, so have their FITS exports. *)
Theorem different_molecules_different_names base out line1 line2 :
  molecule line1 <> molecule line2 ->
  clean0_imagename out line1 <> clean0_imagename out line2
  /\ clean1_imagename out line1 <> clean1_imagename out line2
  /\ (PyStr.has_char "/" (molecule line1) = false ->
      PyStr.has_char "/" (molecule line2) = false ->
      ef_fitsimage (export_image base out line1) <> ef_fitsimage (export_image base out line2)
      /\ ef_fitsimage (export_mask base out line1)
         <> ef_fitsimage (export_mask base out line2)).
Proof.
  intros Hne.
  split; [intros H; by apply Hne, (image_names_inj out _ _ "_clean0")|].
  split; [intros H; by apply Hne, (image_names_inj out _ _ "_clean1")|].
  intros H1 H2. split; intros H; apply Hne.
  - by apply (fits_names_inj base out out _ _ "_clean1" ".fits").
  - by apply (fits_names_inj base out out _ _ "_clean0" ".mask.fits").
Qed.

Lemma different_molecules_different_names_witness :
  String.eqb (clean0_imagename output_path line_N2H) (clean0_imagename output_path line_DCO)
  = false.
Proof.
  apply String.eqb_neq.
  apply (different_molecules_different_names base_path output_path line_N2H line_DCO).
  vm_compute. discriminate.
Defined.

(** X13. The FITS names are base names: what a molecule name holds up to a
    slash is dropped from them, so two molecules that differ only before
    the slash are exported to the same FITS files. *)
Theorem slash_in_molecule_is_dropped base out1 out2 line1 line2 dir1 dir2 m :
  molecule line1 = dir1 +:+ "/" +:+ m ->
  molecule line2 = dir2 +:+ "/" +:+ m ->
  ef_fitsimage (export_image base out1 line1)
  = PyStr.path_join (fits_dir base)
      [PyStr.path_basename (m +:+ "_contsub" +:+ "_clean1") +:+ ".fits"]
  /\ ef_fitsimage (export_image base out1 line1) = ef_fitsimage (export_image base out2 line2)
  /\ ef_fitsimage (export_mask base out1 line1) = ef_fitsimage (export_mask base out2 line2).
Proof.
  intros H1 H2.
  assert (Hbase : forall out line dir sfx,
            molecule line = dir +:+ "/" +:+ m ->
            PyStr.path_basename (output_prefix out line +:+ sfx)
            = PyStr.path_basename (m +:+ "_contsub" +:+ sfx)).
  { intros out line dir sfx Hm. unfold output_prefix.
    rewrite basename_join by reflexivity. rewrite Hm, !str_app_assoc.
    rewrite <- (str_app_assoc "AATau_" dir). apply basename_after_slash. }
  unfold export_image, export_mask, clean1_imagename, clean0_imagename.
  cbn [ef_fitsimage].
  by rewrite !(Hbase out1 line1 dir1), !(Hbase out2 line2 dir2).
Qed.

Lemma slash_in_molecule_is_dropped_witness :
  let line1 := {| spw := 0; molecule := "2013/CO"; line_freq := 1%float; restfreqs := [] |} in
  let line2 := {| spw := 0; molecule := "2015/CO"; line_freq := 1%float; restfreqs := [] |} in
  ef_fitsimage (export_image base_path output_path line1)
  = ef_fitsimage (export_image base_path output_path line2).
Proof.
  intros line1 line2.
  apply (slash_in_molecule_is_dropped base_path output_path output_path line1 line2
           "2013" "2015" "CO"); reflexivity.
Defined.

(** The molecules of the catalogue are pairwise different and hold no
    slash. *)
Lemma catalogue_molecules :
  NoDup (map (fun item => molecule item.2) (batch DATASETS))
  /\ Forall (fun item => PyStr.has_char "/" (molecule item.2) = false) (batch DATASETS).
Proof.
  split.
  - apply (bool_decide_unpack _). vm_compute. reflexivity.
  - vm_compute. repeat constructor.
Qed.

(** X14. No line of the catalogue overwrites the products of another:
    two different positions of the batch have different pass-0 cubes,
    pass-1 cubes and FITS files. *)
Theorem catalogue_lines_do_not_collide i j item1 item2 :
  batch DATASETS !! i = Some item1 ->
  batch DATASETS !! j = Some item2 ->
  i <> j ->
  clean0_imagename output_path item1.2 <> clean0_imagename output_path item2.2
  /\ clean1_imagename output_path item1.2 <> clean1_imagename output_path item2.2
  /\ ef_fitsimage (export_image base_path output_path item1.2)
     <> ef_fitsimage (export_image base_path output_path item2.2)
  /\ ef_fitsimage (export_mask base_path output_path item1.2)
     <> ef_fitsimage (export_mask base_path output_path item2.2).
Proof.
  intros H1 H2 Hij. destruct catalogue_molecules as [Hdup Hslash].
  assert (Hne : molecule item1.2 <> molecule item2.2).
  { intros Heq. apply Hij.
    apply (NoDup_lookup _ i j (molecule item1.2) Hdup).
    - by rewrite list_lookup_fmap, H1.
    - by rewrite list_lookup_fmap, H2, Heq. }
  assert (Hin : forall k item, batch DATASETS !! k = Some item ->
                  PyStr.has_char "/" (molecule item.2) = false).
  { intros k item Hk. rewrite Forall_forall in Hslash. apply Hslash.
    by eapply list_elem_of_lookup_2. }
  pose proof (Hin _ _ H1) as Hs1. pose proof (Hin _ _ H2) as Hs2.
  split; [intros H; by apply Hne, (image_names_inj output_path _ _ "_clean0")|].
  split; [intros H; by apply Hne, (image_names_inj output_path _ _ "_clean1")|].
  split; intros H; apply Hne.
  - by apply (fits_names_inj base_path output_path output_path _ _ "_clean1" ".fits").
  - by apply (fits_names_inj base_path output_path output_path _ _ "_clean0" ".mask.fits").
Qed.

Lemma catalogue_lines_do_not_collide_witness :
  String.eqb (ef_fitsimage (export_image base_path output_path line_N2H))
    (ef_fitsimage (export_image base_path output_path line_DCO))
  = false.
Proof.
  apply String.eqb_neq.
  apply (catalogue_lines_do_not_collide 0 1 (dataset_2013_SG2, line_N2H)
           (dataset_2013_SG2, line_DCO)).
  - reflexivity.
  - reflexivity.
  - lia.
Defined.

(** ** The visibility file *)

Lemma brace_free_cons c s :
  brace_free (String c s) = true ->
  Ascii.eqb c "{" = false /\ Ascii.eqb c "}" = false /\ brace_free s = true.
Proof.
  unfold brace_free. simpl.
  destruct (Ascii.eqb c "{"), (Ascii.eqb c "}"), (PyStr.has_char "{" s),
    (PyStr.has_char "}" s); simpl; intros H; try discriminate; done.
Qed.

(** A template without braces is copied. *)
Lemma format_plain fuel n s :
  brace_free s = true -> (String.length s < fuel)%nat ->
  PyStr.format_from fuel n s = inr s.
Proof.
  revert fuel. induction s as [|c s IH]; intros fuel Hs Hf.
  - by destruct fuel.
  - destruct fuel as [|fuel]; [simpl in Hf; lia|].
    apply brace_free_cons in Hs as (Ho & Hc & Hs).
    cbn [PyStr.format_from]. rewrite Ho, Hc, IH; [done|done|simpl in Hf; lia].
Qed.

(** The field [{spw}] is replaced by the decimal spectral window. *)
Lemma format_field fuel n s :
  brace_free s = true -> (5 + String.length s < fuel)%nat ->
  PyStr.format_from fuel n ("{spw}" +:+ s) = inr (PyStr.str_of_int n +:+ s).
Proof.
  intros Hs Hf. destruct fuel as [|fuel]; [lia|].
  rewrite !str_app_cons, str_app_nil_l. cbn -[PyStr.str_of_int PyStr.format_from].
  cbn [PyStr.format_from].
  change (PyStr.split_field (String "s" (String "p" (String "w" (String "}" s)))))
    with (Some ("spw", s)).
  cbn -[PyStr.str_of_int PyStr.format_from].
  rewrite format_plain; [done|done|lia].
Qed.

Lemma format_simple fuel n p s :
  brace_free p = true -> brace_free s = true ->
  (String.length (p +:+ "{spw}" +:+ s) < fuel)%nat ->
  PyStr.format_from fuel n (p +:+ "{spw}" +:+ s) = inr (p +:+ PyStr.str_of_int n +:+ s).
Proof.
  revert fuel. induction p as [|c p IH]; intros fuel Hp Hs Hf.
  - rewrite !str_app_nil_l in *. apply format_field; [done|].
    rewrite str_length_app in Hf. simpl in Hf. lia.
  - destruct fuel as [|fuel]; [lia|].
    apply brace_free_cons in Hp as (Ho & Hc & Hp).
    rewrite !str_app_cons in *. cbn [PyStr.format_from]. rewrite Ho, Hc, IH; try done.
    simpl in Hf. lia.
Qed.

(** X15. For a template with the single field [{spw}] and no other brace,
    the visibility file is the template with the decimal spectral window
    in place of the field, joined to [base_path/contsub_dir]; when the
    filled template starts with a slash, it is the visibility file by
    itself and the base path plays no role. *)
Theorem vis_file_of_simple_template base ds line p s :
  vis_template ds = p +:+ "{spw}" +:+ s ->
  brace_free p = true -> brace_free s = true ->
  let filled := p +:+ PyStr.str_of_int (spw line) +:+ s in
  vis_file base ds line
  = Ok (if PyStr.startswith "/" filled then filled
        else join_prefix (PyStr.path_join base [contsub_dir ds]) +:+ filled).
Proof.
  intros Ht Hp Hs filled. unfold vis_file, PyStr.str_format_spw.
  rewrite Ht, format_simple by (done || lia). fold filled.
  destruct (PyStr.startswith "/" filled) eqn:Habs.
  - change (PyStr.path_join ?d [filled]) with (PyStr.join_step d filled).
    unfold PyStr.join_step. by rewrite Habs.
  - by rewrite join_relative.
Qed.

Lemma vis_file_of_simple_template_witness :
  vis_file base_path dataset_2013_SG2 line_N2H
  = Ok (join_prefix (PyStr.path_join base_path [contsub_dir dataset_2013_SG2])
        +:+ "AA_Tau_2013_SG2.spw" +:+ PyStr.str_of_int (spw line_N2H)
        +:+ ".selfcal.ms.contsub_fit1").
Proof.
  apply (vis_file_of_simple_template base_path dataset_2013_SG2 line_N2H
           "AA_Tau_2013_SG2.spw" ".selfcal.ms.contsub_fit1"); reflexivity.
Defined.

(** Literal text before the first brace is copied. *)
Lemma format_literal_prefix fuel n p rest :
  brace_free p = true ->
  PyStr.format_from (String.length p + fuel) n (p +:+ rest)
  = match PyStr.format_from fuel n rest with
    | inr r => inr (p +:+ r)
    | inl e => inl e
    end.
Proof.
  induction p as [|c p IH]; intros Hp.
  - rewrite str_app_nil_l. simpl. by destruct (PyStr.format_from fuel n rest).
  - apply brace_free_cons in Hp as (Ho & Hc & Hp).
    rewrite str_app_cons. cbn [String.length Nat.add PyStr.format_from].
    rewrite Ho, Hc, (IH Hp). by destruct (PyStr.format_from fuel n rest).
Qed.

(** An opening brace that is not doubled starts a replacement field. *)
Lemma format_open_field fuel n rest :
  (forall s, rest <> String "{" s) ->
  PyStr.format_from (S fuel) n (String "{" rest)
  = match PyStr.split_field rest with
    | None => inl PyStr.FormatValueError
    | Some (f, rest') =>
        if PyStr.has_char "{" f then inl PyStr.FormatValueError
        else if String.eqb f "spw" then
          match PyStr.format_from fuel n rest' with
          | inr r => inr (PyStr.str_of_int n +:+ r)
          | inl e => inl e
          end
        else if PyStr.all_digits f then inl PyStr.FormatIndexError
        else inl (PyStr.FormatKeyError f)
    end.
Proof.
  intros Hrest. destruct rest as [|c rest]; [reflexivity|].
  destruct (ascii_dec c "{") as [->|Hc]; [by destruct (Hrest rest)|].
  destruct c as [[] [] [] [] [] [] [] []]; first [reflexivity | by destruct Hc].
Qed.

Lemma split_field_none s : PyStr.has_char "}" s = false -> PyStr.split_field s = None.
Proof.
  induction s as [|c s IH]; [done|]. simpl.
  intros [Hc Hs]%orb_false_iff. by rewrite Hc, (IH Hs).
Qed.

Lemma split_field_closed f s :
  PyStr.has_char "}" f = false -> PyStr.split_field (f +:+ "}" +:+ s) = Some (f, s).
Proof.
  induction f as [|c f IH].
  - intros _. by rewrite str_app_nil_l.
  - cbn [PyStr.has_char]. intros [Hc Hf]%orb_false_iff.
    rewrite str_app_cons. cbn [PyStr.split_field]. by rewrite Hc, (IH Hf).
Qed.

Lemma identifier_char_no_brace c :
  identifier_char c = true -> Ascii.eqb c "{" = false /\ Ascii.eqb c "}" = false.
Proof.
  destruct c as [[] [] [] [] [] [] [] []]; vm_compute; intros H;
    first [discriminate H | done].
Qed.

Lemma identifier_chars_brace_free f : identifier_chars f = true -> brace_free f = true.
Proof.
  unfold brace_free. induction f as [|c f IH]; [done|]. simpl.
  intros [Hc Hf]%andb_true_iff.
  destruct (identifier_char_no_brace c Hc) as [-> ->]. simpl. by apply IH.
Qed.

(** What [str.format] does with a template whose first brace opens a
    field that is never closed, or a field named by an identifier other
    than [spw]. *)
Lemma format_of_bad_template n p rest :
  brace_free p = true ->
  (brace_free rest = true ->
   PyStr.str_format_spw (p +:+ "{" +:+ rest) n = inl PyStr.FormatValueError)
  /\ (forall f s, rest = f +:+ "}" +:+ s -> unknown_keyword f = true ->
        PyStr.str_format_spw (p +:+ "{" +:+ rest) n = inl (PyStr.FormatKeyError f)).
Proof.
  intros Hp.
  assert (Hfuel : forall r, S (String.length (p +:+ "{" +:+ r))
                            = (String.length p + S (S (String.length r)))%nat).
  { intros r. rewrite str_length_app, str_app_cons, str_app_nil_l. simpl. lia. }
  split.
  - intros Hrest. unfold PyStr.str_format_spw.
    rewrite Hfuel, (format_literal_prefix _ _ _ _ Hp).
    change ("{" +:+ rest) with (String "{" rest).
    apply andb_true_iff in Hrest as [Ho%negb_true_iff Hc%negb_true_iff].
    rewrite format_open_field, (split_field_none _ Hc); [done|].
    intros s ->. simpl in Ho. discriminate.
  - intros f s -> Hf.
    assert (Hfacts : identifier_chars f = true /\ String.eqb f "spw" = false
                     /\ PyStr.all_digits f = false).
    { destruct f as [|c f]; [done|]. cbn [unknown_keyword] in Hf.
      apply andb_true_iff in Hf
        as [[Hd%negb_true_iff Hid]%andb_true_iff Hspw%negb_true_iff].
      repeat split; try done.
      cbn [PyStr.all_digits]. unfold digit_char in Hd. by rewrite Hd. }
    destruct Hfacts as (Hid & Hspw & Hdigits).
    pose proof (identifier_chars_brace_free _ Hid) as Hb.
    apply andb_true_iff in Hb as [Ho%negb_true_iff Hc%negb_true_iff].
    unfold PyStr.str_format_spw.
    rewrite Hfuel, (format_literal_prefix _ _ _ _ Hp).
    change ("{" +:+ f +:+ "}" +:+ s) with (String "{" (f +:+ "}" +:+ s)).
    rewrite format_open_field, (split_field_closed _ _ Hc), Ho, Hspw, Hdigits; [done|].
    intros s' Heq. destruct f as [|c f]; [done|].
    rewrite str_app_cons in Heq. injection Heq as -> _.
    simpl in Ho. discriminate.
Qed.

(** X16. A template whose first brace opens a field that is never closed
    makes [str.format] raise a [ValueError], and one whose first field is
    named by an identifier other than [spw] a [KeyError] of that name.
    [clean_line] then raises before it calls anything, leaving the state as
    it was, and the loop of [main] swallows the exception: the line is
    skipped without a trace. *)
Theorem bad_template_skips_line env base out ds line st p rest :
  vis_template ds = p +:+ "{" +:+ rest ->
  brace_free p = true ->
  (brace_free rest = true ->
   clean_line env base out ds line st = (Raise ValueError, st)
   /\ process_line env ds line st = (Ok tt, st))
  /\ (forall f s, rest = f +:+ "}" +:+ s -> unknown_keyword f = true ->
        clean_line env base out ds line st = (Raise (KeyError f), st)
        /\ process_line env ds line st = (Ok tt, st)).
Proof.
  intros Ht Hp.
  assert (Hskip : forall e,
            is_Exception e = true ->
            (forall b, vis_file b ds line = Raise e) ->
            clean_line env base out ds line st = (Raise e, st)
            /\ process_line env ds line st = (Ok tt, st)).
  { intros e He Hvis.
    assert (Hrun : forall b o, clean_line env b o ds line st = (Raise e, st)).
    { intros b o. unfold clean_line. unfold bind at 1, lift. by rewrite Hvis. }
    split; [done|]. by rewrite process_line_run, Hrun, He. }
  destruct (format_of_bad_template (spw line) p rest Hp) as [Hvalue Hkey].
  split.
  - intros Hrest. apply Hskip; [done|].
    intros b. unfold vis_file. by rewrite Ht, (Hvalue Hrest).
  - intros f s Hs Hf. apply Hskip; [done|].
    intros b. unfold vis_file. by rewrite Ht, (Hkey f s Hs Hf).
Qed.

Lemma bad_template_skips_line_witness :
  clean_line (steady None) base_path output_path
    {| name := "2013_SG2"; vis_template := "AA_Tau.spw{spw"; width := "0.2km/s";
       lines := [line_N2H] |}
    line_N2H initial_state
  = (Raise ValueError, initial_state)
  /\ clean_line (steady None) base_path output_path
       {| name := "2013_SG2"; vis_template := "AA_Tau.{band}.ms"; width := "0.2km/s";
          lines := [line_N2H] |}
       line_N2H initial_state
     = (Raise (KeyError "band"), initial_state).
Proof.
  split.
  - apply (proj1 (bad_template_skips_line (steady None) base_path output_path
                    {| name := "2013_SG2"; vis_template := "AA_Tau.spw{spw";
                       width := "0.2km/s"; lines := [line_N2H] |}
                    line_N2H initial_state "AA_Tau.spw" "spw" eq_refl eq_refl)).
    reflexivity.
  - apply (proj2 (bad_template_skips_line (steady None) base_path output_path
                    {| name := "2013_SG2"; vis_template := "AA_Tau.{band}.ms";
                       width := "0.2km/s"; lines := [line_N2H] |}
                    line_N2H initial_state "AA_Tau." "band}.ms" eq_refl eq_refl)
             "band" ".ms" eq_refl).
    reflexivity.
Defined.
